(** * CtrlS: the chapter runner and its console utilities

    A shallow embedding of [CtrlS/src/utils.py] and
    [CtrlS/src/game_engine.py].

    Console effects are recorded as a trace of events, Python exceptions
    as an outcome next to the trace, and the attributes of the
    [GameEngine] object as a record threaded through its methods.

    What lies outside the two files is taken as follows.  [print] and
    [input] succeed, and [input] is given a line.  [time.sleep] turns
    its argument into a count of nanoseconds that has to fit 64 bits,
    raises [OverflowError] when it does not and [ValueError] when it is
    negative.  An import answers with a module
    or raises; the attributes a module binds to the names the runner
    probes are zero-argument callables, and a call returns or raises.
    What a chapter prints or reads while it runs is not looked into. *)

From stdpp Require Import base option list relations gmap strings pretty.
From Stdlib Require Import ZArith QArith Lia Lqa.

Local Open Scope Z_scope.

(** ** Strings *)

(** The line feed character, Python's ["\n"]. *)
Definition LF : string := String (Ascii.ascii_of_nat 10) EmptyString.

(** [s * n] on Python strings. *)
Fixpoint str_mul (s : string) (n : nat) : string :=
  match n with
  | O => EmptyString
  | S n' => s +:+ str_mul s n'
  end.

(** The characters of a string, each as a one-character string: what
    [for char in text] iterates over, for a text of one-byte
    characters. *)
Fixpoint chars (text : string) : list string :=
  match text with
  | EmptyString => []
  | String c rest => String c EmptyString :: chars rest
  end.

(** ** Exceptions *)

(** The exception classes the two files can meet.  [ModuleNotFoundError]
    is a subclass of [ImportError]; [OtherException] stands for a class
    outside the [ImportError] hierarchy, named by its class name. *)
Inductive exn_class :=
  | ImportError
  | ModuleNotFoundError
  | AttributeError
  | ValueError
  | OtherException (name : string).

Record exn := Exn { exn_cls : exn_class; exn_msg : string }.

(** What [except ImportError] catches. *)
Definition is_ImportError (e : exn) : bool :=
  match exn_cls e with
  | ImportError | ModuleNotFoundError => true
  | _ => false
  end.

Inductive outcome (A : Type) :=
  | Ret (a : A)
  | Raise (e : exn).
Arguments Ret {A} a.
Arguments Raise {A} e.

(** ** The world outside the two files *)

(** A zero-argument callable found on a chapter module.  The runner
    passes no argument and drops the returned value, so a call is
    described by whether it returns or raises. *)
Inductive entry :=
  | Returns
  | Raises (e : exn).

(** [import_module] answers [importlib.import_module]: the namespace of
    the module (its attributes bound to callables, by name) or the
    exception the import raises.  [os_name] is [os.name]. *)
Record World := {
  os_name : string;
  import_module : string -> outcome (gmap string entry)
}.

(** ** Events *)

Inductive event :=
  | EvWrite (s : string)            (* characters written to stdout *)
  | EvFlush                         (* stdout flushed *)
  | EvSleep (seconds : Q)           (* time.sleep returned *)
  | EvInput (prompt : string)       (* input(prompt) read one line *)
  | EvSystem (cmd : string)         (* os.system(cmd) *)
  | EvImport (name : string)        (* importlib.import_module(name) *)
  | EvInvoke (chapter_num : Z) (name : string).
                                    (* the callable [name] of chapter
                                       [chapter_num] was called; the event
                                       stands for the whole call, the
                                       chapter's own console output
                                       included *)

(** ** Console code: a trace and an outcome *)

Definition IO (A : Type) : Type := list event * outcome A.

Global Instance IO_ret : MRet IO := fun A a => ([], Ret a).

Global Instance IO_bind : MBind IO := fun A B f m =>
  match m with
  | (tr, Ret a) => let '(tr', r) := f a in (tr ++ tr', r)
  | (tr, Raise e) => (tr, Raise e)
  end.

(** [try: body / except ImportError as e: handler e]. *)
Definition try_except_ImportError {A} (body : IO A) (handler : exn -> IO A)
  : IO A :=
  match body with
  | (tr, Ret a) => body
  | (tr, Raise e) =>
      if is_ImportError e
      then let '(tr', r) := handler e in (tr ++ tr', r)
      else body
  end.

Definition raise {A} (e : exn) : IO A := ([], Raise e).

(** [print(s)]: the text and the line terminator. *)
Definition print (s : string) : IO unit := ([EvWrite (s +:+ LF)], Ret tt).

(** [print(s, end='', flush=True)]. *)
Definition print_noend_flush (s : string) : IO unit :=
  ([EvWrite s; EvFlush], Ret tt).

(** The counts of nanoseconds [time.sleep] can hold: a signed 64-bit
    integer. *)
Definition sleep_ns_min : Z := -9223372036854775808.
Definition sleep_ns_max : Z := 9223372036854775807.

(** Whether [seconds], as nanoseconds rounded away from zero, fits.  The
    product is taken exactly; the interpreter takes it in double
    precision, which can differ within rounding of the two limits. *)
Definition sleep_fits (seconds : Q) : bool :=
  Qle_bool (inject_Z sleep_ns_min) (seconds * 1000000000)
  && Qle_bool (seconds * 1000000000) (inject_Z sleep_ns_max).

(** [time.sleep(seconds)]: a length that does not fit is an
    [OverflowError], a negative length that fits is a [ValueError]. *)
Definition sleep (seconds : Q) : IO unit :=
  if sleep_fits seconds
  then
    if Qle_bool 0 seconds
    then ([EvSleep seconds], Ret tt)
    else raise (Exn ValueError "sleep length must be non-negative")
  else
    raise (Exn (OtherException "OverflowError")
             "timestamp too large to convert to C _PyTime_t").

(** [input(prompt)]; every caller drops the line that was read. *)
Definition input (prompt : string) : IO unit := ([EvInput prompt], Ret tt).

Definition os_system (cmd : string) : IO unit := ([EvSystem cmd], Ret tt).

(** ** utils.py *)

(** [dramatic_pause], a sleep of random length that the runner never
    calls, is left out. *)

Module utils.

Definition clear_screen (w : World) : IO unit :=
  if String.eqb (os_name w) "nt"
  then os_system "cls"
  else os_system "clear".

Fixpoint slow_type_loop (cs : list string) (speed : Q) : IO unit :=
  match cs with
  | [] => mret tt
  | char :: rest =>
      print_noend_flush char;;
      sleep speed;;
      slow_type_loop rest speed
  end.

Definition default_speed : Q := 0.05.

(** [def slow_type(text, speed=0.05)]: [None] is the call that leaves
    [speed] out. *)
Definition slow_type (text : string) (speed : option Q) : IO unit :=
  let speed := default default_speed speed in
  slow_type_loop (chars text) speed;;
  print LF.

Definition pause_prompt : string :=
  LF +:+ "(Your journey pauses but briefly. Press Enter to delve deeper into the odyssey.)" +:+ LF.

Definition press_enter_to_continue (w : World) : IO unit :=
  input pause_prompt;;
  clear_screen w.

Definition farewell_prompt : string :=
  LF +:+ "Press Enter to bid farewell to this digital odyssey.".

Definition end_game : IO unit :=
  print (LF +:+ "Your journey ends here, but the adventure continues in your heart.");;
  print "And also in any sequels we may develop.";;
  input farewell_prompt.

Definition welcome_message : IO unit :=
  print (LF +:+ "Welcome to 'Ctrl+S - The World Edition!' - By Thomas J Butler");;
  print "The indie game where keyboards are mightier than swords.";;
  print "Please check out my GitHub and LinkedIn profiles for more projects and to connect with me.";;
  print (str_mul "-" 60);;
  print "Remember, in this world, your wit is your greatest weapon.";;
  print (str_mul "-" 60);;
  sleep 2.

End utils.

(** ** game_engine.py *)

(** [self.game_state]: a dictionary with three fixed keys. *)
Record GameState := {
  player_name : string;
  inventory : list string;
  progress : gmap string string
}.

(** The attributes of a [GameEngine] object. *)
Record GameEngine := {
  current_chapter : Z;
  max_chapters : Z;
  game_state : GameState
}.

(** A method: [self] before, [self] after, and what the call did.  The
    object outlives an exception, so [self] is returned in both cases. *)
Definition Method (A : Type) : Type := GameEngine -> GameEngine * IO A.

Global Instance Method_ret : MRet Method := fun A a self => (self, mret a).

Global Instance Method_bind : MBind Method := fun A B f m self =>
  match m self with
  | (self', (tr, Ret a)) =>
      let '(self'', (tr', r)) := f a self' in (self'', (tr ++ tr', r))
  | (self', (tr, Raise e)) => (self', (tr, Raise e))
  end.

(** Console code called from a method leaves [self] alone. *)
Definition io {A} (m : IO A) : Method A := fun self => (self, m).

Definition get_max_chapters : Method Z :=
  fun self => (self, mret (max_chapters self)).

Definition set_current_chapter (v : Z) : Method unit :=
  fun self =>
    ({| current_chapter := v;
        max_chapters := max_chapters self;
        game_state := game_state self |}, mret tt).

(** [range(lo, hi)]. *)
Definition range (lo hi : Z) : list Z := seqZ lo (hi - lo).

Module game_engine.

(** [GameEngine()]. *)
Definition init : GameEngine := {|
  current_chapter := 1;
  max_chapters := 5;
  game_state := {| player_name := ""; inventory := []; progress := ∅ |}
|}.

Definition module_name (chapter_num : Z) : string :=
  "chapters.ch" +:+ pretty chapter_num.

(** [importlib.import_module(name)]. *)
Definition importlib_import_module (w : World) (name : string)
  : IO (gmap string entry) :=
  ([EvImport name], import_module w name).

Definition load_chapter (w : World) (chapter_num : Z)
  : Method (option (gmap string entry)) :=
  io (try_except_ImportError
        (chapter_module ← importlib_import_module w (module_name chapter_num);
         mret (Some chapter_module))
        (fun e =>
           print ("Error loading chapter " +:+ pretty chapter_num +:+ ": "
                    +:+ exn_msg e);;
           mret None)).

(** [hasattr(chapter_module, name)]. *)
Definition hasattr (chapter_module : gmap string entry) (name : string)
  : bool :=
  bool_decide (is_Some (chapter_module !! name)).

(** [getattr(chapter_module, name)()]. *)
Definition call (chapter_num : Z) (chapter_module : gmap string entry)
    (name : string) : IO unit :=
  match chapter_module !! name with
  | Some Returns => ([EvInvoke chapter_num name], Ret tt)
  | Some (Raises e) => ([EvInvoke chapter_num name], Raise e)
  | None => raise (Exn AttributeError name)
  end.

Definition name_main : string := "main".
Definition name_chapter (chapter_num : Z) : string :=
  "chapter_" +:+ pretty chapter_num.
Definition name_ch_main (chapter_num : Z) : string :=
  "ch" +:+ pretty chapter_num +:+ "_main".

Definition run_chapter (w : World) (chapter_num : Z) : Method bool :=
  io (print (LF +:+ str_mul "=" 60));;
  io (print ("LOADING CHAPTER " +:+ pretty chapter_num));;
  io (print (str_mul "=" 60));;
  chapter_module ← load_chapter w chapter_num;
  match chapter_module with
  | None =>
      io (print ("Chapter " +:+ pretty chapter_num
                   +:+ " could not be loaded. Skipping..."));;
      mret false
  | Some chapter_module =>
      if hasattr chapter_module name_main then
        io (call chapter_num chapter_module name_main);;
        mret true
      else if hasattr chapter_module (name_chapter chapter_num) then
        io (call chapter_num chapter_module (name_chapter chapter_num));;
        mret true
      else if hasattr chapter_module (name_ch_main chapter_num) then
        io (call chapter_num chapter_module (name_ch_main chapter_num));;
        mret true
      else
        io (print ("No main function found in chapter "
                     +:+ pretty chapter_num));;
        mret false
  end.

Definition save_progress : Method unit := mret tt.

Definition load_progress : Method unit := mret tt.

(** One pass through the body of the [for] loop of [start_game]; the
    result is [success], so [false] is the [break]. *)
Definition loop_body (w : World) (chapter : Z) : Method bool :=
  io (print (LF +:+ "--- Beginning Chapter " +:+ pretty chapter +:+ " ---"));;
  success ← run_chapter w chapter;
  if negb success then
    io (print "Game encountered an error. Ending...");;
    mret false
  else
    set_current_chapter (chapter + 1);;
    save_progress;;
    mc ← get_max_chapters;
    (if bool_decide (chapter < mc)
     then io (utils.press_enter_to_continue w)
     else mret tt);;
    mret true.

Fixpoint for_chapters (w : World) (chapters : list Z) : Method unit :=
  match chapters with
  | [] => mret tt
  | chapter :: rest =>
      success ← loop_body w chapter;
      if (success : bool) then for_chapters w rest else mret tt
  end.

Definition banner : string := "ADVENTURE COMPLETED!".

Definition start_game (w : World) : Method unit :=
  io (utils.clear_screen w);;
  io utils.welcome_message;;
  io (utils.press_enter_to_continue w);;
  mc ← get_max_chapters;
  for_chapters w (range 1 (mc + 1));;
  io (print (LF +:+ str_mul "=" 60));;
  io (print banner);;
  io (print (str_mul "=" 60));;
  io utils.end_game.

(** [main()]: a fresh engine runs the game. *)
Definition main (w : World) : GameEngine * IO unit := start_game w init.

End game_engine.

(** ** Reading a trace *)

(** What the [print] calls of a trace wrote, as one string.  The prompt
    of an [input] and whatever a command run by [os.system] writes to
    the terminal are not part of it. *)
Fixpoint stdout (tr : list event) : string :=
  match tr with
  | [] => EmptyString
  | EvWrite s :: rest => s +:+ stdout rest
  | _ :: rest => stdout rest
  end.

(** The entry points that were called, in order. *)
Definition invocation (e : event) : option (Z * string) :=
  match e with
  | EvInvoke n name => Some (n, name)
  | _ => None
  end.

Definition invocations (tr : list event) : list (Z * string) :=
  omap invocation tr.

(** The modules whose import was attempted, in order. *)
Definition import_of (e : event) : option string :=
  match e with
  | EvImport name => Some name
  | _ => None
  end.

Definition imports (tr : list event) : list string := omap import_of tr.

(** The [print("ADVENTURE COMPLETED!")] of [start_game]. *)
Definition is_banner (e : event) : bool :=
  match e with
  | EvWrite s => String.eqb s (game_engine.banner +:+ LF)
  | _ => false
  end.

(** The [input] of [press_enter_to_continue]. *)
Definition is_pause (e : event) : bool :=
  match e with
  | EvInput p => String.eqb p utils.pause_prompt
  | _ => false
  end.

(** The [input] of [end_game]. *)
Definition is_farewell (e : event) : bool :=
  match e with
  | EvInput p => String.eqb p utils.farewell_prompt
  | _ => false
  end.

Definition count (p : event -> bool) (tr : list event) : nat :=
  length (List.filter p tr).

(** The chapters whose entry point was called, in order. *)
Definition invoked (tr : list event) : list Z := (invocations tr).*1.

(** The pauses and the chapter calls of a trace, in order. *)
Inductive mark :=
  | Pause
  | Chapter (n : Z).

Definition mark_of (e : event) : option mark :=
  match e with
  | EvInvoke n _ => Some (Chapter n)
  | EvInput p => if String.eqb p utils.pause_prompt then Some Pause else None
  | _ => None
  end.

Definition marks (tr : list event) : list mark := omap mark_of tr.

(** ** The priority order of the specification *)

(** The entry point the specification designates: [main] first, then
    [chapter_<n>], then [ch<n>_main]. *)
Definition entry_by_priority (chapter_module : gmap string entry)
    (chapter_num : Z) : option (string * entry) :=
  match chapter_module !! game_engine.name_main with
  | Some f => Some (game_engine.name_main, f)
  | None =>
      match chapter_module !! game_engine.name_chapter chapter_num with
      | Some f => Some (game_engine.name_chapter chapter_num, f)
      | None =>
          match chapter_module !! game_engine.name_ch_main chapter_num with
          | Some f => Some (game_engine.name_ch_main chapter_num, f)
          | None => None
          end
      end
  end.

(** ** What the hypotheses of the scenarios mean *)

(** Chapter [n] succeeds: [run_chapter(n)] returns [True]. *)
Definition succeeds (w : World) (n : Z) : Prop :=
  forall self, (game_engine.run_chapter w n self).2.2 = Ret true.

(** Chapter [n] fails to load: [load_chapter(n)] returns [None]. *)
Definition fails_to_load (w : World) (n : Z) : Prop :=
  forall self, (game_engine.load_chapter w n self).2.2 = Ret None.

(** ** The loop of [start_game], one iteration at a time *)

(** Where the loop stands: at its head with the chapters still to come,
    left (exhausted or by [break]), or unwound by an exception. *)
Inductive loop_pc :=
  | AtHead (pending : list Z)
  | Exited
  | Unwound (e : exn).

(** [cfg_returned] is a history variable: the chapters on which
    [run_chapter] has returned so far, each with the value returned. *)
Record loop_cfg := {
  cfg_self : GameEngine;
  cfg_pc : loop_pc;
  cfg_returned : list (Z * bool)
}.

Definition loop_start (self : GameEngine) : loop_cfg := {|
  cfg_self := self;
  cfg_pc := AtHead (range 1 (max_chapters self + 1));
  cfg_returned := []
|}.

Definition loop_step (w : World) (c : loop_cfg) : option loop_cfg :=
  match cfg_pc c with
  | AtHead [] =>
      Some {| cfg_self := cfg_self c; cfg_pc := Exited;
              cfg_returned := cfg_returned c |}
  | AtHead (chapter :: rest) =>
      match game_engine.loop_body w chapter (cfg_self c) with
      | (self', (_, Ret success)) =>
          Some {| cfg_self := self';
                  cfg_pc := if success then AtHead rest else Exited;
                  cfg_returned := cfg_returned c ++ [(chapter, success)] |}
      | (self', (_, Raise e)) =>
          Some {| cfg_self := self'; cfg_pc := Unwound e;
                  cfg_returned := cfg_returned c |}
      end
  | Exited | Unwound _ => None
  end.

Definition loop_steps (w : World) : relation loop_cfg :=
  rtc (fun c c' => loop_step w c = Some c').

(** The number of chapters on which [run_chapter] returned [True]. *)
Definition successes (c : loop_cfg) : Z :=
  Z.of_nat (length (List.filter snd (cfg_returned c))).

(** ** A lifetime of an engine *)

Inductive operation :=
  | OpLoadChapter (chapter_num : Z)
  | OpRunChapter (chapter_num : Z)
  | OpSaveProgress
  | OpLoadProgress
  | OpStartGame.

(** The engine after one call; the world may differ from call to call. *)
Definition perform (self : GameEngine) (call : World * operation)
  : GameEngine :=
  match call.2 with
  | OpLoadChapter n => (game_engine.load_chapter call.1 n self).1
  | OpRunChapter n => (game_engine.run_chapter call.1 n self).1
  | OpSaveProgress => (game_engine.save_progress self).1
  | OpLoadProgress => (game_engine.load_progress self).1
  | OpStartGame => (game_engine.start_game call.1 self).1
  end.

(** The engine after [GameEngine()] and a sequence of calls. *)
Definition lifetime (calls : list (World * operation)) : GameEngine :=
  foldl perform game_engine.init calls.

(** ** Sample worlds *)

(** A POSIX world whose importable modules are those of [mods]. *)
Definition world_of (mods : gmap string (gmap string entry)) : World := {|
  os_name := "posix";
  import_module := fun name =>
    match mods !! name with
    | Some m => Ret m
    | None =>
        Raise (Exn ModuleNotFoundError ("No module named '" +:+ name +:+ "'"))
    end
|}.

(** Chapters 1 and 2 exist, chapters 3, 4 and 5 do not. *)
Definition world_two : World :=
  world_of {[ "chapters.ch1" := {[ "main" := Returns ]};
              "chapters.ch2" := {[ "chapter_2" := Returns;
                                   "ch2_main" := Returns ]} ]}.

(** Chapters 1 and 2 succeed, chapter 3 is missing, chapters 4 and 5
    exist. *)
Definition world_gap : World :=
  world_of {[ "chapters.ch1" := {[ "main" := Returns ]};
              "chapters.ch2" := {[ "chapter_2" := Returns ]};
              "chapters.ch4" := {[ "main" := Returns ]};
              "chapters.ch5" := {[ "main" := Returns ]} ]}.

(** All five chapters exist, under the three names. *)
Definition world_five : World :=
  world_of {[ "chapters.ch1" := {[ "main" := Returns ]};
              "chapters.ch2" := {[ "chapter_2" := Returns ]};
              "chapters.ch3" := {[ "ch3_main" := Returns ]};
              "chapters.ch4" := {[ "main" := Returns;
                                   "chapter_4" := Returns ]};
              "chapters.ch5" := {[ "main" := Returns ]} ]}.

Definition boom : exn := Exn (OtherException "RuntimeError") "boom".

(** Chapter 1 exists and its [main] raises. *)
Definition world_raising : World :=
  world_of {[ "chapters.ch1" := {[ "main" := Raises boom ]} ]}.

Definition bad_syntax : exn :=
  Exn (OtherException "SyntaxError") "invalid syntax".

(** Every import raises a [SyntaxError]. *)
Definition world_syntax : World := {|
  os_name := "posix";
  import_module := fun _ => Raise bad_syntax
|}.

(** ** Normal forms of the traces *)

(** The three lines [run_chapter] prints first. *)
Definition header (n : Z) : list event :=
  [EvWrite ((LF +:+ str_mul "=" 60) +:+ LF);
   EvWrite (("LOADING CHAPTER " +:+ pretty n) +:+ LF);
   EvWrite (str_mul "=" 60 +:+ LF)].

(** What [run_chapter] does once the import has been attempted, by cases
    on the answer of the import. *)
Definition after_import (w : World) (n : Z) : IO bool :=
  match import_module w (game_engine.module_name n) with
  | Ret m =>
      match entry_by_priority m n with
      | Some (name, Returns) => ([EvInvoke n name], Ret true)
      | Some (name, Raises e) => ([EvInvoke n name], Raise e)
      | None =>
          ([EvWrite (("No main function found in chapter " +:+ pretty n)
                       +:+ LF)], Ret false)
      end
  | Raise e =>
      if is_ImportError e
      then ([EvWrite (("Error loading chapter " +:+ pretty n +:+ ": "
                         +:+ exn_msg e) +:+ LF);
             EvWrite (("Chapter " +:+ pretty n
                         +:+ " could not be loaded. Skipping...") +:+ LF)],
            Ret false)
      else ([], Raise e)
  end.

Definition beginning (chapter : Z) : event :=
  EvWrite ((LF +:+ "--- Beginning Chapter " +:+ pretty chapter +:+ " ---")
             +:+ LF).

Definition ending_notice : event :=
  EvWrite ("Game encountered an error. Ending..." +:+ LF).

(** [self] after [self.current_chapter = chapter + 1]. *)
Definition advance (self : GameEngine) (chapter : Z) : GameEngine :=
  {| current_chapter := chapter + 1;
     max_chapters := max_chapters self;
     game_state := game_state self |}.

(** What [start_game] does before the loop and after it. *)
Definition prologue (w : World) : list event :=
  (utils.clear_screen w).1 ++ utils.welcome_message.1
    ++ (utils.press_enter_to_continue w).1.

Definition epilogue : list event :=
  [EvWrite ((LF +:+ str_mul "=" 60) +:+ LF);
   EvWrite (game_engine.banner +:+ LF);
   EvWrite (str_mul "=" 60 +:+ LF)] ++ utils.end_game.1.

(** The trace of one character of [slow_type]. *)
Definition typed (speed : Q) (char : string) : list event :=
  [EvWrite char; EvFlush; EvSleep speed].

(** ** The invariant of the loop *)

(** The history after chapters [1..j] have all returned [True]. *)
Definition passed (j : nat) : list (Z * bool) :=
  (fun k => (k, true)) <$> seqZ 1 (Z.of_nat j).

(** After [j] successful chapters [current_chapter] is [1 + j]; at the
    head of the loop the chapters [j+1..max] are still to come; the loop
    is left with every chapter passed or with chapter [j+1] failed. *)
Definition loop_inv (max : Z) (c : loop_cfg) : Prop :=
  exists j : nat,
    Z.of_nat j <= max /\
    max_chapters (cfg_self c) = max /\
    current_chapter (cfg_self c) = 1 + Z.of_nat j /\
    match cfg_pc c with
    | AtHead pending =>
        cfg_returned c = passed j /\
        pending = seqZ (1 + Z.of_nat j) (max - Z.of_nat j)
    | Exited =>
        cfg_returned c = passed j \/
        (Z.of_nat j < max /\
         cfg_returned c = passed j ++ [(1 + Z.of_nat j, false)])
    | Unwound _ => cfg_returned c = passed j /\ Z.of_nat j < max
    end.

(** ** Further readings of a trace *)

(** The commands given to [os.system], in order. *)
Definition system_of (e : event) : option string :=
  match e with
  | EvSystem cmd => Some cmd
  | _ => None
  end.

Definition systems (tr : list event) : list string := omap system_of tr.

(** The lengths of the sleeps, in order. *)
Definition sleep_of (e : event) : option Q :=
  match e with
  | EvSleep seconds => Some seconds
  | _ => None
  end.

Definition sleeps (tr : list event) : list Q := omap sleep_of tr.

(** The [print("Game encountered an error. Ending...")] of [start_game]. *)
Definition is_notice (e : event) : bool :=
  match e with
  | EvWrite s => String.eqb s ("Game encountered an error. Ending..." +:+ LF)
  | _ => false
  end.

(** The command [clear_screen] gives on the platform of [w]. *)
Definition clear_command (w : World) : string :=
  if String.eqb (os_name w) "nt" then "cls" else "clear".

(** The two lines with which [run_chapter] explains a [False]. *)
Definition skip_notice (n : Z) : event :=
  EvWrite (("Chapter " +:+ pretty n +:+ " could not be loaded. Skipping...")
             +:+ LF).

Definition no_main_notice (n : Z) : event :=
  EvWrite (("No main function found in chapter " +:+ pretty n) +:+ LF).

(** [self] after the chapters of [done] have passed one after the other. *)
Definition advanced (self : GameEngine) (done : list Z) : GameEngine :=
  foldl advance self done.

(** * Proofs *)

Import game_engine.

(** ** Normal forms of the methods *)

Lemma load_chapter_eq w n self :
  load_chapter w n self =
    (self,
     match import_module w (module_name n) with
     | Ret m => ([EvImport (module_name n)], Ret (Some m))
     | Raise e =>
         if is_ImportError e
         then ([EvImport (module_name n);
                EvWrite (("Error loading chapter " +:+ pretty n +:+ ": "
                           +:+ exn_msg e) +:+ LF)], Ret None)
         else ([EvImport (module_name n)], Raise e)
     end).
Proof.
  unfold load_chapter, io, try_except_ImportError, importlib_import_module.
  f_equal.
  destruct (import_module w (module_name n)) as [m|e]; cbn; [done|].
  by destruct (is_ImportError e).
Qed.

Lemma hasattr_lookup (m : gmap string entry) name :
  hasattr m name = match m !! name with Some _ => true | None => false end.
Proof.
  unfold hasattr. destruct (m !! name) eqn:E.
  - apply bool_decide_eq_true_2. eauto.
  - apply bool_decide_eq_false_2. intros [? ?]; congruence.
Qed.

Local Arguments load_chapter : simpl never.

Lemma run_chapter_eq w n self :
  run_chapter w n self =
    (self,
     (header n ++ EvImport (module_name n) :: (after_import w n).1,
      (after_import w n).2)).
Proof.
  unfold run_chapter, after_import, entry_by_priority.
  unfold mbind, Method_bind. cbn.
  rewrite load_chapter_eq. cbn.
  destruct (import_module w (module_name n)) as [m|e]; cbn.
  - rewrite !hasattr_lookup. unfold call.
    destruct (m !! name_main) as [[|e1]|] eqn:E1; cbn; [done|done|].
    destruct (m !! name_chapter n) as [[|e2]|] eqn:E2; cbn; [done|done|].
    destruct (m !! name_ch_main n) as [[|e3]|] eqn:E3; cbn; done.
  - destruct (is_ImportError e); cbn; done.
Qed.

Local Arguments run_chapter : simpl never.
Local Arguments after_import : simpl never.
Local Arguments header : simpl never.
Local Arguments utils.press_enter_to_continue : simpl never.

Lemma press_enter_ret w : (utils.press_enter_to_continue w).2 = Ret tt.
Proof.
  unfold utils.press_enter_to_continue, utils.clear_screen.
  by destruct (String.eqb (os_name w) "nt").
Qed.

Lemma loop_body_eq w chapter self :
  loop_body w chapter self =
    match (after_import w chapter).2 with
    | Ret true =>
        (advance self chapter,
         (beginning chapter :: header chapter
            ++ EvImport (module_name chapter) :: (after_import w chapter).1
            ++ (if bool_decide (chapter < max_chapters self)
                then (utils.press_enter_to_continue w).1 else []),
          Ret true))
    | Ret false =>
        (self,
         (beginning chapter :: header chapter
            ++ EvImport (module_name chapter) :: (after_import w chapter).1
            ++ [ending_notice],
          Ret false))
    | Raise e =>
        (self,
         (beginning chapter :: header chapter
            ++ EvImport (module_name chapter) :: (after_import w chapter).1,
          Raise e))
    end.
Proof.
  unfold loop_body, mbind, Method_bind. cbn.
  rewrite run_chapter_eq. cbn.
  destruct (after_import w chapter) as [tr [[|]|e]]; cbn.
  - unfold advance. case_bool_decide; cbn.
    + pose proof (press_enter_ret w) as P.
      destruct (utils.press_enter_to_continue w) as [ptr [[]|pe]];
        [|discriminate P].
      cbn. rewrite ?app_nil_r, <- ?List.app_assoc. done.
    + rewrite ?app_nil_r, <- ?List.app_assoc. done.
  - rewrite <- ?List.app_assoc. done.
  - done.
Qed.

Local Arguments loop_body : simpl never.
Local Arguments for_chapters : simpl never.

Lemma for_chapters_nil w self : for_chapters w [] self = (self, ([], Ret tt)).
Proof. reflexivity. Qed.

Lemma for_chapters_cons w chapter rest self :
  for_chapters w (chapter :: rest) self =
    let r := loop_body w chapter self in
    match r.2.2 with
    | Ret true =>
        let r' := for_chapters w rest r.1 in
        (r'.1, (r.2.1 ++ r'.2.1, r'.2.2))
    | Ret false => (r.1, (r.2.1, Ret tt))
    | Raise e => (r.1, (r.2.1, Raise e))
    end.
Proof.
  unfold for_chapters at 1; fold for_chapters.
  unfold mbind, Method_bind. cbn.
  destruct (loop_body w chapter self) as [s [tr [[|]|e]]]; cbn.
  - by destruct (for_chapters w rest s) as [s' [tr' r']].
  - by rewrite app_nil_r.
  - done.
Qed.

Lemma start_game_eq w self :
  start_game w self =
    let r := for_chapters w (range 1 (max_chapters self + 1)) self in
    (r.1,
     match r.2.2 with
     | Ret _ => (prologue w ++ r.2.1 ++ epilogue, Ret tt)
     | Raise e => (prologue w ++ r.2.1, Raise e)
     end).
Proof.
  unfold start_game, mbind, Method_bind, prologue, epilogue.
  unfold utils.press_enter_to_continue, utils.clear_screen.
  destruct (String.eqb (os_name w) "nt"); cbn;
    destruct (for_chapters w _ self) as [s [tr [[]|e]]]; cbn; done.
Qed.

(** ** Reading the trace of [run_chapter] *)

Lemma invocations_app tr tr' :
  invocations (tr ++ tr') = invocations tr ++ invocations tr'.
Proof. apply omap_app. Qed.

Lemma invocations_header n : invocations (header n) = [].
Proof. reflexivity. Qed.

Lemma invocations_run_chapter w n self :
  invocations (run_chapter w n self).2.1 = invocations (after_import w n).1.
Proof.
  rewrite run_chapter_eq. cbn [fst snd].
  by rewrite invocations_app, invocations_header.
Qed.

Lemma load_chapter_some w n self m :
  (load_chapter w n self).2.2 = Ret (Some m) ->
  import_module w (module_name n) = Ret m.
Proof.
  rewrite load_chapter_eq. cbn [fst snd].
  destruct (import_module w (module_name n)) as [m'|e]; cbn.
  - congruence.
  - destruct (is_ImportError e); discriminate.
Qed.

(** C1.  When [load_chapter(n)] resolves a unit, [run_chapter(n)] calls
    exactly one entry point if one of [main], [chapter_<n>], [ch<n>_main]
    is on the unit, the first of them in that order, so [main] alone when
    [main] is there whatever else is; and it calls none and returns
    [False] if none of the three is there.  Holds for every integer [n],
    the chapters 1..5 among them. *)
Theorem run_chapter_entry_point w n self m :
  (load_chapter w n self).2.2 = Ret (Some m) ->
  let tr := (run_chapter w n self).2.1 in
  (hasattr m name_main = true -> invocations tr = [(n, name_main)]) /\
  (hasattr m name_main = false -> hasattr m (name_chapter n) = true ->
   invocations tr = [(n, name_chapter n)]) /\
  (hasattr m name_main = false -> hasattr m (name_chapter n) = false ->
   hasattr m (name_ch_main n) = true ->
   invocations tr = [(n, name_ch_main n)]) /\
  (hasattr m name_main = false -> hasattr m (name_chapter n) = false ->
   hasattr m (name_ch_main n) = false ->
   invocations tr = [] /\ (run_chapter w n self).2.2 = Ret false).
Proof.
  intros L tr. subst tr. apply load_chapter_some in L.
  rewrite invocations_run_chapter, run_chapter_eq. cbn [fst snd].
  unfold after_import, entry_by_priority. rewrite L, !hasattr_lookup.
  destruct (m !! name_main) as [[|e1]|];
    destruct (m !! name_chapter n) as [[|e2]|];
    destruct (m !! name_ch_main n) as [[|e3]|];
    repeat split; intros; try discriminate; reflexivity.
Qed.

(** Chapter 4 of [world_five] has both [main] and [chapter_4]. *)
Lemma run_chapter_entry_point_witness :
  (load_chapter world_five 4 init).2.2
    = Ret (Some {[ "main" := Returns; "chapter_4" := Returns ]}) /\
  invocations (run_chapter world_five 4 init).2.1 = [(4, "main")].
Proof.
  assert (L : (load_chapter world_five 4 init).2.2
    = Ret (Some {[ "main" := Returns; "chapter_4" := Returns ]}))
    by (vm_compute; reflexivity).
  split; [exact L|].
  apply (proj1 (run_chapter_entry_point world_five 4 init _ L)).
  vm_compute; reflexivity.
Defined.

(** ** Exceptions at the boundary of the runner *)

(** C2, as stated, fails: the exception raised by the entry point of a
    chapter leaves [run_chapter], and an exception of the import that is
    not an [ImportError] leaves [load_chapter]. *)
Lemma exceptions_escape_runner :
  (run_chapter world_raising 1 init).2.2 = Raise boom /\
  (forall b, (run_chapter world_raising 1 init).2.2 <> Ret b) /\
  (load_chapter world_syntax 1 init).2.2 = Raise bad_syntax /\
  (forall m, (load_chapter world_syntax 1 init).2.2 <> Ret m).
Proof.
  assert (R : (run_chapter world_raising 1 init).2.2 = Raise boom)
    by (vm_compute; reflexivity).
  assert (L : (load_chapter world_syntax 1 init).2.2 = Raise bad_syntax)
    by (vm_compute; reflexivity).
  split; [exact R|]. split; [intros b; rewrite R; discriminate|].
  split; [exact L|]. intros m; rewrite L; discriminate.
Qed.

(** C2, amended.  [load_chapter] turns an [ImportError] of the import
    into [None], and [run_chapter] turns it, and a unit without any of
    the three names, into [False]; every other exception, that of the
    import or that of the entry point that was called, is raised to the
    caller as it is. *)
Theorem runner_boundary w n self :
  (load_chapter w n self).2.2 =
    match import_module w (module_name n) with
    | Ret m => Ret (Some m)
    | Raise e => if is_ImportError e then Ret None else Raise e
    end /\
  (run_chapter w n self).2.2 =
    match import_module w (module_name n) with
    | Ret m =>
        match entry_by_priority m n with
        | Some (_, Returns) => Ret true
        | Some (_, Raises e) => Raise e
        | None => Ret false
        end
    | Raise e => if is_ImportError e then Ret false else Raise e
    end.
Proof.
  rewrite load_chapter_eq, run_chapter_eq. cbn [fst snd].
  unfold after_import.
  destruct (import_module w (module_name n)) as [m|e].
  - split; [done|].
    by destruct (entry_by_priority m n) as [[name [|e]]|].
  - by destruct (is_ImportError e).
Qed.

(** C5.  When the import of chapter [n] fails with an [ImportError]
    (the module does not exist), [load_chapter(n)] prints one line that
    names the chapter and the error, returns [None] and raises nothing;
    the engine is as before. *)
Theorem load_chapter_unresolvable w n self e :
  import_module w (module_name n) = Raise e ->
  is_ImportError e = true ->
  load_chapter w n self =
    (self,
     ([EvImport (module_name n);
       EvWrite (("Error loading chapter " +:+ pretty n +:+ ": "
                   +:+ exn_msg e) +:+ LF)],
      Ret None)).
Proof.
  intros I E. by rewrite load_chapter_eq, I, E.
Qed.

(** There is no chapter 7 in [world_two]. *)
Lemma load_chapter_unresolvable_witness :
  let e := Exn ModuleNotFoundError "No module named 'chapters.ch7'" in
  (import_module world_two (module_name 7) = Raise e /\
   is_ImportError e = true) /\
  load_chapter world_two 7 init =
    (init,
     ([EvImport "chapters.ch7";
       EvWrite ("Error loading chapter 7: No module named 'chapters.ch7'"
                  +:+ LF)],
      Ret None)).
Proof.
  intros e.
  assert (I : import_module world_two (module_name 7) = Raise e)
    by (vm_compute; reflexivity).
  assert (E : is_ImportError e = true) by reflexivity.
  split; [done|].
  exact (load_chapter_unresolvable world_two 7 init e I E).
Defined.

(** C7.  [save_progress] and [load_progress] return without a trace
    event, without an exception and with the engine they were given. *)
Theorem progress_hooks_inert self :
  save_progress self = (self, ([], Ret tt)) /\
  load_progress self = (self, ([], Ret tt)).
Proof. split; reflexivity. Qed.

(** ** [slow_type] *)

Lemma append_cons c s t : String c s +:+ t = String c (s +:+ t).
Proof. reflexivity. Qed.

Lemma append_assoc (s t u : string) : (s +:+ t) +:+ u = s +:+ (t +:+ u).
Proof.
  induction s as [|c s IH]; [done|]. by rewrite !append_cons, IH.
Qed.

Lemma stdout_app tr tr' : stdout (tr ++ tr') = stdout tr +:+ stdout tr'.
Proof.
  induction tr as [|[] tr IH]; cbn; try done.
  by rewrite IH, append_assoc.
Qed.

Lemma stdout_typed speed text :
  stdout (flat_map (typed speed) (chars text)) = text.
Proof.
  induction text as [|c text IH]; [done|].
  cbn [chars flat_map typed app stdout]. by rewrite IH.
Qed.

(** A sleep of up to 9 000 000 000 seconds is taken: its nanoseconds
    stay clear of the 64-bit limit, which lies near 9 223 372 036
    seconds. *)
Lemma sleep_fits_in_range (seconds : Q) :
  (-9000000000 <= seconds <= 9000000000)%Q -> sleep_fits seconds = true.
Proof.
  intros [H1 H2]. unfold sleep_fits, sleep_ns_min, sleep_ns_max.
  apply andb_true_intro. split; apply Qle_bool_iff.
  - change (inject_Z (-9223372036854775808)) with (-9223372036854775808)%Q.
    lra.
  - change (inject_Z 9223372036854775807) with (9223372036854775807)%Q.
    lra.
Qed.

Lemma sleep_in_range (seconds : Q) :
  (0 <= seconds <= 9000000000)%Q ->
  sleep seconds = ([EvSleep seconds], Ret tt).
Proof.
  intros [H1 H2]. unfold sleep.
  rewrite sleep_fits_in_range by (split; lra).
  apply Qle_bool_iff in H1. by rewrite H1.
Qed.

Lemma sleep_negative (seconds : Q) :
  (-9000000000 <= seconds < 0)%Q ->
  sleep seconds
    = raise (Exn ValueError "sleep length must be non-negative").
Proof.
  intros [H1 H2]. unfold sleep.
  rewrite sleep_fits_in_range by (split; lra).
  destruct (Qle_bool 0 seconds) eqn:E; [|reflexivity].
  apply Qle_bool_iff in E. lra.
Qed.

Lemma slow_type_loop_eq cs speed :
  sleep speed = ([EvSleep speed], Ret tt) ->
  utils.slow_type_loop cs speed = (flat_map (typed speed) cs, Ret tt).
Proof.
  intros H. induction cs as [|c cs IH]; [done|].
  cbn [utils.slow_type_loop flat_map].
  unfold mbind, IO_bind, print_noend_flush. rewrite H, IH.
  reflexivity.
Qed.

(** C8, as stated, fails: after the text come two line feeds, not one;
    and with a speed that [time.sleep] refuses, a negative one or one of
    10 000 000 000 seconds, the first sleep raises, so only the first
    character is written. *)
Lemma slow_type_counterexample :
  stdout (utils.slow_type "a" None).1 = "a" +:+ LF +:+ LF /\
  stdout (utils.slow_type "a" None).1 <> "a" +:+ LF /\
  utils.slow_type "ab" (Some (-1)%Q) =
    ([EvWrite "a"; EvFlush],
     Raise (Exn ValueError "sleep length must be non-negative")) /\
  utils.slow_type "ab" (Some 10000000000%Q) =
    ([EvWrite "a"; EvFlush],
     Raise (Exn (OtherException "OverflowError")
              "timestamp too large to convert to C _PyTime_t")).
Proof. repeat split; vm_compute; congruence. Qed.

Lemma slow_type_negative_speed c rest (speed : Q) :
  (-9000000000 <= speed < 0)%Q ->
  utils.slow_type (String c rest) (Some speed) =
    ([EvWrite (String c EmptyString); EvFlush],
     Raise (Exn ValueError "sleep length must be non-negative")).
Proof.
  intros H. unfold utils.slow_type.
  change (default utils.default_speed (Some speed)) with speed.
  cbn [chars utils.slow_type_loop].
  unfold mbind, IO_bind, print_noend_flush.
  by rewrite (sleep_negative speed H).
Qed.

(** C8, amended.  For every text and every speed from 0 to
    9 000 000 000 seconds, [slow_type] writes the characters of the text
    in order, each flushed and followed by a sleep of [speed], then
    writes two line feeds (the argument of [print("\n")] and its line
    terminator); the speed left out is 0.05. *)
Theorem slow_type_output text (speed : option Q) :
  (0 <= default utils.default_speed speed <= 9000000000)%Q ->
  utils.slow_type text speed =
    (flat_map (typed (default utils.default_speed speed)) (chars text)
       ++ [EvWrite (LF +:+ LF)],
     Ret tt) /\
  stdout (utils.slow_type text speed).1 = text +:+ LF +:+ LF /\
  utils.slow_type text None = utils.slow_type text (Some 0.05%Q).
Proof.
  intros H. apply sleep_in_range in H.
  assert (E : utils.slow_type text speed =
    (flat_map (typed (default utils.default_speed speed)) (chars text)
       ++ [EvWrite (LF +:+ LF)], Ret tt)).
  { unfold utils.slow_type, mbind, IO_bind.
    by rewrite (slow_type_loop_eq _ _ H). }
  split; [exact E|]. split; [|reflexivity].
  rewrite E. cbn [fst]. by rewrite stdout_app, stdout_typed.
Qed.

(** [slow_type("hi")]. *)
Lemma slow_type_output_witness :
  (0 <= default utils.default_speed None <= 9000000000)%Q /\
  utils.slow_type "hi" None =
    ([EvWrite "h"; EvFlush; EvSleep 0.05; EvWrite "i"; EvFlush; EvSleep 0.05;
      EvWrite (LF +:+ LF)], Ret tt).
Proof.
  assert (H : (0 <= default utils.default_speed None <= 9000000000)%Q)
    by (split; vm_compute; discriminate).
  split; [exact H|].
  exact (proj1 (slow_type_output "hi" None H)).
Defined.

(** ** Counting in the trace of [start_game] *)

Lemma count_app p tr tr' : count p (tr ++ tr') = (count p tr + count p tr')%nat.
Proof. unfold count. by rewrite List.filter_app, length_app. Qed.

Lemma count_cons p e tr :
  count p (e :: tr) = ((if p e then 1 else 0) + count p tr)%nat.
Proof. unfold count. cbn [List.filter]. by destruct (p e). Qed.

Lemma marks_app tr tr' : marks (tr ++ tr') = marks tr ++ marks tr'.
Proof. apply omap_app. Qed.

(** The lines [run_chapter] prints after the import start with [N], [E]
    or [C]: none of them is the banner line. *)
Lemma after_import_shape w n :
  (exists name r, after_import w n = ([EvInvoke n name], r)) \/
  (exists s, after_import w n = ([EvWrite (("N" +:+ s) +:+ LF)], Ret false)) \/
  (exists s s', after_import w n =
     ([EvWrite (("E" +:+ s) +:+ LF); EvWrite (("C" +:+ s') +:+ LF)], Ret false)) \/
  (exists e, after_import w n = ([], Raise e)).
Proof.
  unfold after_import.
  destruct (import_module w (module_name n)) as [m|e].
  - destruct (entry_by_priority m n) as [[name [|e]]|]; eauto 10.
  - destruct (is_ImportError e); eauto 10.
Qed.

Lemma after_import_no_banner w n : count is_banner (after_import w n).1 = 0%nat.
Proof.
  destruct (after_import_shape w n)
    as [(name & r & ->)|[(s & ->)|[(s & s' & ->)|(e & ->)]]]; reflexivity.
Qed.

Lemma after_import_no_farewell w n :
  count is_farewell (after_import w n).1 = 0%nat.
Proof.
  destruct (after_import_shape w n)
    as [(name & r & ->)|[(s & ->)|[(s & s' & ->)|(e & ->)]]]; reflexivity.
Qed.

Lemma after_import_no_pause w n :
  count is_pause (after_import w n).1 = 0%nat.
Proof.
  destruct (after_import_shape w n)
    as [(name & r & ->)|[(s & ->)|[(s & s' & ->)|(e & ->)]]]; reflexivity.
Qed.

Lemma press_enter_trace w :
  exists cmd,
    utils.press_enter_to_continue w
      = ([EvInput utils.pause_prompt; EvSystem cmd], Ret tt).
Proof.
  unfold utils.press_enter_to_continue, utils.clear_screen.
  destruct (String.eqb (os_name w) "nt"); eauto.
Qed.

Lemma prologue_trace w :
  exists cmd cmd',
    prologue w = EvSystem cmd :: utils.welcome_message.1
                   ++ [EvInput utils.pause_prompt; EvSystem cmd'].
Proof.
  unfold prologue, utils.press_enter_to_continue, utils.clear_screen.
  destruct (String.eqb (os_name w) "nt"); eauto.
Qed.

Ltac count_loop_body w chapter lem :=
  rewrite loop_body_eq;
  destruct (press_enter_trace w) as [cmd ->];
  pose proof (lem w chapter);
  destruct (after_import w chapter) as [tr [[|]|e]];
  cbn [fst snd] in *;
  try case_bool_decide;
  repeat (rewrite count_cons || rewrite count_app);
  match goal with H : count _ _ = _ |- _ => rewrite H end;
  reflexivity.

Lemma loop_body_no_banner w chapter self :
  count is_banner (loop_body w chapter self).2.1 = 0%nat.
Proof. count_loop_body w chapter after_import_no_banner. Qed.

Lemma loop_body_no_farewell w chapter self :
  count is_farewell (loop_body w chapter self).2.1 = 0%nat.
Proof. count_loop_body w chapter after_import_no_farewell. Qed.

Lemma for_chapters_no_banner w chapters self :
  count is_banner (for_chapters w chapters self).2.1 = 0%nat.
Proof.
  revert self. induction chapters as [|chapter rest IH]; intros self.
  - reflexivity.
  - rewrite for_chapters_cons. cbn zeta.
    pose proof (loop_body_no_banner w chapter self) as B.
    destruct (loop_body w chapter self) as [s [tr [[|]|e]]]; cbn [fst snd] in *;
      try done.
    by rewrite count_app, B, IH.
Qed.

Lemma for_chapters_no_farewell w chapters self :
  count is_farewell (for_chapters w chapters self).2.1 = 0%nat.
Proof.
  revert self. induction chapters as [|chapter rest IH]; intros self.
  - reflexivity.
  - rewrite for_chapters_cons. cbn zeta.
    pose proof (loop_body_no_farewell w chapter self) as B.
    destruct (loop_body w chapter self) as [s [tr [[|]|e]]]; cbn [fst snd] in *;
      try done.
    by rewrite count_app, B, IH.
Qed.

Lemma prologue_no_banner w : count is_banner (prologue w) = 0%nat.
Proof. destruct (prologue_trace w) as (cmd & cmd' & ->). reflexivity. Qed.

Lemma prologue_no_farewell w : count is_farewell (prologue w) = 0%nat.
Proof. destruct (prologue_trace w) as (cmd & cmd' & ->). reflexivity. Qed.

Lemma start_game_closing w self :
  (for_chapters w (range 1 (max_chapters self + 1)) self).2.2 = Ret tt ->
  let tr := (start_game w self).2.1 in
  (start_game w self).2.2 = Ret tt /\
  count is_banner tr = 1%nat /\
  count is_farewell tr = 1%nat /\
  exists body,
    tr = body ++ epilogue /\
    count is_banner body = 0%nat /\ count is_farewell body = 0%nat.
Proof.
  intros L tr. subst tr. rewrite start_game_eq. cbn zeta.
  pose proof (for_chapters_no_banner w (range 1 (max_chapters self + 1)) self)
    as B.
  pose proof (for_chapters_no_farewell w (range 1 (max_chapters self + 1)) self)
    as F.
  destruct (for_chapters w _ self) as [s [tr [[]|e]]]; cbn [fst snd] in *;
    [|discriminate L].
  assert (Bb : count is_banner (prologue w ++ tr) = 0%nat)
    by (by rewrite count_app, prologue_no_banner, B).
  assert (Fb : count is_farewell (prologue w ++ tr) = 0%nat)
    by (by rewrite count_app, prologue_no_farewell, F).
  split; [done|].
  rewrite (List.app_assoc (prologue w) tr epilogue).
  rewrite !(count_app _ (prologue w ++ tr) epilogue), Bb, Fb.
  repeat split; try reflexivity.
  by exists (prologue w ++ tr).
Qed.

Lemma start_game_unwound w self e :
  (for_chapters w (range 1 (max_chapters self + 1)) self).2.2 = Raise e ->
  (start_game w self).2.2 = Raise e /\
  count is_banner (start_game w self).2.1 = 0%nat /\
  count is_farewell (start_game w self).2.1 = 0%nat.
Proof.
  intros L. rewrite start_game_eq. cbn zeta.
  pose proof (for_chapters_no_banner w (range 1 (max_chapters self + 1)) self)
    as B.
  pose proof (for_chapters_no_farewell w (range 1 (max_chapters self + 1)) self)
    as F.
  destruct (for_chapters w _ self) as [s [tr [[]|e']]]; cbn [fst snd] in *;
    [discriminate L|].
  rewrite !count_app, prologue_no_banner, prologue_no_farewell, B, F.
  done.
Qed.

(** C6, as stated, fails: when the entry point of chapter 1 raises,
    [start_game] is left by the exception, the banner is not printed and
    [end_game] is not called. *)
Lemma banner_missing_when_chapter_raises :
  (start_game world_raising init).2.2 = Raise boom /\
  count is_banner (start_game world_raising init).2.1 = 0%nat /\
  count is_farewell (start_game world_raising init).2.1 = 0%nat.
Proof. repeat split; vm_compute; reflexivity. Qed.

(** C6, amended.  Whenever the loop of [start_game] is left, exhausted
    or by [break], [start_game] returns, and its trace ends with the
    three banner lines and the trace of [end_game], the only place where
    the banner line and the farewell prompt occur: each occurs once. *)
Theorem banner_and_farewell_once w self :
  (for_chapters w (range 1 (max_chapters self + 1)) self).2.2 = Ret tt ->
  let tr := (start_game w self).2.1 in
  (start_game w self).2.2 = Ret tt /\
  count is_banner tr = 1%nat /\
  count is_farewell tr = 1%nat /\
  exists body,
    tr = body ++ epilogue /\
    count is_banner body = 0%nat /\ count is_farewell body = 0%nat.
Proof. apply start_game_closing. Qed.

(** In [world_two] the loop is left by [break] at chapter 3. *)
Lemma banner_and_farewell_once_witness :
  (for_chapters world_two (range 1 (max_chapters init + 1)) init).2.2 = Ret tt /\
  count is_banner (start_game world_two init).2.1 = 1%nat /\
  count is_farewell (start_game world_two init).2.1 = 1%nat.
Proof.
  assert (L : (for_chapters world_two (range 1 (max_chapters init + 1)) init).2.2
                = Ret tt) by (vm_compute; reflexivity).
  split; [exact L|].
  pose proof (banner_and_farewell_once world_two init L) as (_ & B & F & _).
  exact (conj B F).
Defined.

Lemma loop_body_outcome w chapter self :
  (loop_body w chapter self).2.2 = (after_import w chapter).2.
Proof.
  rewrite loop_body_eq. by destruct (after_import w chapter) as [tr [[|]|e]].
Qed.

Lemma loop_body_self w chapter self :
  (loop_body w chapter self).1 =
    match (after_import w chapter).2 with
    | Ret true => advance self chapter
    | _ => self
    end.
Proof.
  rewrite loop_body_eq. by destruct (after_import w chapter) as [tr [[|]|e]].
Qed.

Lemma loop_body_success w chapter self :
  (loop_body w chapter self).2.2 = (run_chapter w chapter self).2.2.
Proof. by rewrite loop_body_outcome, run_chapter_eq. Qed.

Lemma after_import_no_import w n : imports (after_import w n).1 = [].
Proof.
  destruct (after_import_shape w n)
    as [(name & r & ->)|[(s & ->)|[(s & s' & ->)|(e & ->)]]]; reflexivity.
Qed.

Lemma imports_app tr tr' : imports (tr ++ tr') = imports tr ++ imports tr'.
Proof. apply omap_app. Qed.

Lemma loop_body_trace w chapter self :
  (loop_body w chapter self).2.1 =
    (beginning chapter :: header chapter)
      ++ [EvImport (module_name chapter)]
      ++ (after_import w chapter).1
      ++ match (after_import w chapter).2 with
         | Ret true =>
             if bool_decide (chapter < max_chapters self)
             then (utils.press_enter_to_continue w).1 else []
         | Ret false => [ending_notice]
         | Raise _ => []
         end.
Proof.
  rewrite loop_body_eq.
  destruct (after_import w chapter) as [tr [[|]|e]]; cbn [fst snd];
    rewrite ?app_nil_r; reflexivity.
Qed.

Lemma loop_body_invocations w chapter self :
  invocations (loop_body w chapter self).2.1
    = invocations (after_import w chapter).1.
Proof.
  rewrite loop_body_trace, !invocations_app.
  destruct (press_enter_trace w) as [cmd ->].
  destruct (after_import w chapter).2 as [[|]|e]; try case_bool_decide;
    cbn [fst]; rewrite ?app_nil_r; reflexivity.
Qed.

Lemma loop_body_imports w chapter self :
  imports (loop_body w chapter self).2.1 = [module_name chapter].
Proof.
  rewrite loop_body_trace, !imports_app, after_import_no_import.
  destruct (press_enter_trace w) as [cmd ->].
  destruct (after_import w chapter).2 as [[|]|e]; try case_bool_decide;
    reflexivity.
Qed.

Lemma loop_body_marks w chapter self :
  marks (loop_body w chapter self).2.1 =
    marks (after_import w chapter).1
      ++ match (after_import w chapter).2 with
         | Ret true =>
             if bool_decide (chapter < max_chapters self) then [Pause] else []
         | _ => []
         end.
Proof.
  rewrite loop_body_trace, !marks_app.
  destruct (press_enter_trace w) as [cmd ->].
  destruct (after_import w chapter).2 as [[|]|e]; try case_bool_decide;
    reflexivity.
Qed.

Lemma succeeds_after_import w n :
  succeeds w n -> exists name, after_import w n = ([EvInvoke n name], Ret true).
Proof.
  intros S. specialize (S init). rewrite run_chapter_eq in S. cbn [snd] in S.
  destruct (after_import_shape w n)
    as [(name & r & E)|[(s & E)|[(s & s' & E)|(e & E)]]];
    rewrite E in S; cbn [snd] in S; try discriminate S.
  exists name. by rewrite E, S.
Qed.

Lemma fails_to_load_after_import w n :
  fails_to_load w n ->
  (after_import w n).2 = Ret false /\
  invocations (after_import w n).1 = [] /\
  marks (after_import w n).1 = [].
Proof.
  intros F. specialize (F init). rewrite load_chapter_eq in F. cbn [snd] in F.
  unfold after_import.
  destruct (import_module w (module_name n)) as [m|e]; [discriminate F|].
  destruct (is_ImportError e); [|discriminate F]. done.
Qed.

Lemma for_chapters_unfold w chapter rest self :
  for_chapters w (chapter :: rest) self =
    match (after_import w chapter).2 with
    | Ret true =>
        let r := for_chapters w rest (advance self chapter) in
        (r.1, ((loop_body w chapter self).2.1 ++ r.2.1, r.2.2))
    | Ret false => (self, ((loop_body w chapter self).2.1, Ret tt))
    | Raise e => (self, ((loop_body w chapter self).2.1, Raise e))
    end.
Proof.
  rewrite for_chapters_cons. cbn zeta.
  rewrite loop_body_outcome, loop_body_self.
  by destruct (after_import w chapter).2 as [[|]|e].
Qed.

Lemma range_1_6 : range 1 (5 + 1) = [1; 2; 3; 4; 5].
Proof. reflexivity. Qed.

Lemma prologue_invocations w : invocations (prologue w) = [].
Proof. destruct (prologue_trace w) as (cmd & cmd' & ->). reflexivity. Qed.

Lemma prologue_imports w : imports (prologue w) = [].
Proof. destruct (prologue_trace w) as (cmd & cmd' & ->). reflexivity. Qed.

Lemma prologue_marks w : marks (prologue w) = [Pause].
Proof. destruct (prologue_trace w) as (cmd & cmd' & ->). reflexivity. Qed.

(** C3.  With five chapters, chapters 1 and 2 succeeding and chapter 3
    failing to load, [start_game] calls the entry points of chapters 1
    and 2 and no other, attempts no import after that of chapter 3,
    prints the banner once and returns. *)
Theorem start_game_halts_at_chapter_3 w self :
  max_chapters self = 5 ->
  succeeds w 1 -> succeeds w 2 -> fails_to_load w 3 ->
  let tr := (start_game w self).2.1 in
  invoked tr = [1; 2] /\
  imports tr = [module_name 1; module_name 2; module_name 3] /\
  count is_banner tr = 1%nat /\
  (start_game w self).2.2 = Ret tt.
Proof.
  intros M S1 S2 F3 tr.
  assert (L : (for_chapters w (range 1 (max_chapters self + 1)) self).2.2
                = Ret tt /\
              invocations (for_chapters w (range 1 (max_chapters self + 1)) self).2.1
                = invocations (after_import w 1).1
                    ++ invocations (after_import w 2).1 /\
              imports (for_chapters w (range 1 (max_chapters self + 1)) self).2.1
                = [module_name 1; module_name 2; module_name 3]).
  { rewrite M, range_1_6.
    destruct (succeeds_after_import w 1 S1) as [name1 E1].
    destruct (succeeds_after_import w 2 S2) as [name2 E2].
    destruct (fails_to_load_after_import w 3 F3) as (E3 & I3 & _).
    rewrite !for_chapters_unfold, E1, E2, E3. cbn [fst snd].
    rewrite !invocations_app, !imports_app, !loop_body_invocations,
      !loop_body_imports, E1, E2, I3.
    done. }
  destruct L as (L & I & P).
  destruct (start_game_closing w self L) as (R & B & _).
  subst tr. repeat split; try done.
  - unfold invoked. rewrite start_game_eq. cbn zeta. rewrite L. cbn [fst snd].
    rewrite !invocations_app, prologue_invocations, I.
    destruct (succeeds_after_import w 1 S1) as [name1 ->].
    destruct (succeeds_after_import w 2 S2) as [name2 ->].
    reflexivity.
  - rewrite start_game_eq. cbn zeta. rewrite L. cbn [fst snd].
    rewrite !imports_app, prologue_imports, P. reflexivity.
Qed.

(** [world_gap] has chapters 4 and 5, and they are not run. *)
Lemma start_game_halts_at_chapter_3_witness :
  (max_chapters init = 5 /\ succeeds world_gap 1 /\ succeeds world_gap 2
   /\ fails_to_load world_gap 3) /\
  invoked (start_game world_gap init).2.1 = [1; 2] /\
  count is_banner (start_game world_gap init).2.1 = 1%nat.
Proof.
  assert (M : max_chapters init = 5) by reflexivity.
  assert (S1 : succeeds world_gap 1) by (intros self; vm_compute; reflexivity).
  assert (S2 : succeeds world_gap 2) by (intros self; vm_compute; reflexivity).
  assert (F3 : fails_to_load world_gap 3)
    by (intros self; vm_compute; reflexivity).
  split; [done|].
  pose proof (start_game_halts_at_chapter_3 world_gap init M S1 S2 F3)
    as (I & _ & B & _).
  exact (conj I B).
Defined.

Lemma loop_body_pauses w chapter self :
  count is_pause (loop_body w chapter self).2.1 =
    match (after_import w chapter).2 with
    | Ret true =>
        if bool_decide (chapter < max_chapters self) then 1%nat else 0%nat
    | _ => 0%nat
    end.
Proof.
  rewrite loop_body_trace, !count_app.
  pose proof (after_import_no_pause w chapter) as ->.
  destruct (press_enter_trace w) as [cmd ->].
  destruct (after_import w chapter).2 as [[|]|e]; try case_bool_decide;
    reflexivity.
Qed.

(** C4.  With five chapters that all succeed, [start_game] calls the
    entry points of chapters 1, 2, 3, 4, 5, once each and in this order;
    the loop pauses four times, once between two consecutive chapters
    and not after chapter 5; the only other pause is the one before the
    loop. *)
Theorem start_game_five_chapters w self :
  max_chapters self = 5 ->
  succeeds w 1 -> succeeds w 2 -> succeeds w 3 -> succeeds w 4 ->
  succeeds w 5 ->
  let loop := (for_chapters w (range 1 (max_chapters self + 1)) self).2.1 in
  let tr := (start_game w self).2.1 in
  invoked tr = [1; 2; 3; 4; 5] /\
  marks loop = [Chapter 1; Pause; Chapter 2; Pause; Chapter 3; Pause;
                Chapter 4; Pause; Chapter 5] /\
  count is_pause loop = 4%nat /\
  marks tr = Pause :: marks loop /\
  (start_game w self).2.2 = Ret tt.
Proof.
  intros M S1 S2 S3 S4 S5 loop tr. subst loop tr.
  destruct (succeeds_after_import w 1 S1) as [name1 E1].
  destruct (succeeds_after_import w 2 S2) as [name2 E2].
  destruct (succeeds_after_import w 3 S3) as [name3 E3].
  destruct (succeeds_after_import w 4 S4) as [name4 E4].
  destruct (succeeds_after_import w 5 S5) as [name5 E5].
  rewrite start_game_eq. cbn zeta.
  rewrite M, range_1_6.
  rewrite !for_chapters_unfold, E1, E2, E3, E4, E5. cbn [fst snd advance].
  rewrite for_chapters_nil. cbn [fst snd].
  unfold invoked.
  rewrite !invocations_app, !marks_app, !count_app, !loop_body_invocations,
    !loop_body_marks, !loop_body_pauses, prologue_invocations, prologue_marks,
    E1, E2, E3, E4, E5.
  cbn [fst snd advance max_chapters]. rewrite M.
  repeat split; reflexivity.
Qed.

(** [world_five] has the five chapters. *)
Lemma start_game_five_chapters_witness :
  (max_chapters init = 5 /\ succeeds world_five 1 /\ succeeds world_five 2
   /\ succeeds world_five 3 /\ succeeds world_five 4 /\ succeeds world_five 5)
  /\ invoked (start_game world_five init).2.1 = [1; 2; 3; 4; 5]
  /\ count is_pause
       (for_chapters world_five (range 1 (max_chapters init + 1)) init).2.1
     = 4%nat.
Proof.
  assert (M : max_chapters init = 5) by reflexivity.
  assert (S1 : succeeds world_five 1) by (intros self; vm_compute; reflexivity).
  assert (S2 : succeeds world_five 2) by (intros self; vm_compute; reflexivity).
  assert (S3 : succeeds world_five 3) by (intros self; vm_compute; reflexivity).
  assert (S4 : succeeds world_five 4) by (intros self; vm_compute; reflexivity).
  assert (S5 : succeeds world_five 5) by (intros self; vm_compute; reflexivity).
  split; [done|].
  pose proof (start_game_five_chapters world_five init M S1 S2 S3 S4 S5)
    as (I & _ & P & _).
  exact (conj I P).
Defined.

(** ** What the methods leave alone *)

Lemma for_chapters_frame w chapters self :
  game_state (for_chapters w chapters self).1 = game_state self /\
  max_chapters (for_chapters w chapters self).1 = max_chapters self.
Proof.
  revert self. induction chapters as [|chapter rest IH]; intros self; [done|].
  rewrite for_chapters_unfold.
  destruct (after_import w chapter).2 as [[|]|e]; cbn [fst]; try done.
  apply (IH (advance self chapter)).
Qed.

Lemma perform_frame self call :
  game_state (perform self call) = game_state self /\
  max_chapters (perform self call) = max_chapters self.
Proof.
  destruct call as [w []]; unfold perform; cbn [fst snd].
  - by rewrite load_chapter_eq.
  - by rewrite run_chapter_eq.
  - done.
  - done.
  - rewrite start_game_eq. apply for_chapters_frame.
Qed.

Lemma lifetime_frame calls self :
  game_state (foldl perform self calls) = game_state self /\
  max_chapters (foldl perform self calls) = max_chapters self.
Proof.
  revert self. induction calls as [|call calls IH]; intros self; [done|].
  cbn [foldl]. destruct (IH (perform self call)) as [-> ->].
  apply perform_frame.
Qed.

(** C9.  No call of a method changes [game_state] or [max_chapters],
    so in every engine reached from [GameEngine()] the player name is
    empty, the inventory is empty, the progress map is empty and
    [max_chapters] is 5: [current_chapter] is the one attribute that is
    ever assigned. *)
Theorem game_state_never_mutated :
  (forall self call,
     game_state (perform self call) = game_state self /\
     max_chapters (perform self call) = max_chapters self) /\
  (forall calls,
     player_name (game_state (lifetime calls)) = "" /\
     inventory (game_state (lifetime calls)) = [] /\
     progress (game_state (lifetime calls)) = ∅ /\
     max_chapters (lifetime calls) = 5).
Proof.
  split; [apply perform_frame|].
  intros calls. unfold lifetime.
  destruct (lifetime_frame calls init) as [-> ->]. done.
Qed.

(** ** The loop, one iteration at a time *)

Lemma passed_S j : passed (S j) = passed j ++ [(1 + Z.of_nat j, true)].
Proof. unfold passed. by rewrite seqZ_S, fmap_app. Qed.

Lemma successes_passed self pc j :
  successes {| cfg_self := self; cfg_pc := pc; cfg_returned := passed j |}
    = Z.of_nat j.
Proof.
  unfold successes. cbn [cfg_returned]. f_equal.
  induction j as [|j IH]; [done|].
  rewrite passed_S, List.filter_app, length_app, IH. cbn. lia.
Qed.

Lemma loop_inv_start self :
  current_chapter self = 1 -> 0 <= max_chapters self ->
  loop_inv (max_chapters self) (loop_start self).
Proof.
  intros C M. exists 0%nat. cbn. repeat split; try done; try lia.
  unfold range. f_equal. lia.
Qed.

Lemma loop_inv_step w max c c' :
  loop_inv max c -> loop_step w c = Some c' -> loop_inv max c'.
Proof.
  intros (j & Hj & Hmax & Hcur & Hpc) Hstep.
  unfold loop_step in Hstep.
  destruct (cfg_pc c) as [[|chapter rest]| |e]; try discriminate Hstep.
  - injection Hstep as <-. destruct Hpc as [Hlog _].
    exists j. cbn. auto.
  - destruct Hpc as [Hlog Hpend].
    assert (Hlt : Z.of_nat j < max).
    { destruct (decide (Z.of_nat j < max)) as [|Hge]; [done|].
      rewrite seqZ_nil in Hpend by lia. discriminate Hpend. }
    rewrite seqZ_cons in Hpend by lia. injection Hpend as -> ->.
    rewrite loop_body_eq in Hstep.
    destruct (after_import w (1 + Z.of_nat j)).2 as [[|]|e];
      injection Hstep as <-.
    + exists (S j). cbn. rewrite Hlog, Hmax, passed_S.
      repeat split; try done; try lia. f_equal; lia.
    + exists j. cbn. rewrite Hlog. repeat split; try done. right. done.
    + exists j. cbn. rewrite Hlog. repeat split; try done.
Qed.

Lemma loop_inv_reachable w self c :
  current_chapter self = 1 -> 0 <= max_chapters self ->
  loop_steps w (loop_start self) c ->
  loop_inv (max_chapters self) c.
Proof.
  intros C M. revert c. apply rtc_ind_r.
  - by apply loop_inv_start.
  - intros c c' _ S I. by eapply loop_inv_step.
Qed.

Lemma loop_steps_for_chapters w chapters self log :
  exists c,
    loop_steps w {| cfg_self := self; cfg_pc := AtHead chapters;
                    cfg_returned := log |} c /\
    loop_step w c = None /\
    cfg_self c = (for_chapters w chapters self).1.
Proof.
  revert self log. induction chapters as [|chapter rest IH]; intros self log.
  - eexists. split; [apply rtc_once; reflexivity|]. done.
  - rewrite for_chapters_cons. cbn zeta.
    destruct (loop_body w chapter self) as [s [tr [[|]|e]]] eqn:B;
      cbn [fst snd].
    + destruct (IH s (log ++ [(chapter, true)])) as (c & R & F & E).
      exists c. split; [|done].
      eapply rtc_l; [|exact R]. unfold loop_step. cbn. by rewrite B.
    + eexists. split; [apply rtc_once; unfold loop_step; cbn; by rewrite B|].
      done.
    + eexists. split; [apply rtc_once; unfold loop_step; cbn; by rewrite B|].
      done.
Qed.

(** C10.  Started on an engine with [current_chapter = 1], at the
    head of every iteration and once the loop is left, [current_chapter]
    is 1 plus the number of chapters on which [run_chapter] returned
    [True]; when the last chapter run, [k], returned [False],
    [current_chapter] is [k]; and [current_chapter] lies between 1 and
    [max_chapters + 1].  The engine [start_game] hands back is that of a
    configuration the loop reaches and cannot leave. *)
Theorem current_chapter_counts_successes w self :
  current_chapter self = 1 -> 0 <= max_chapters self ->
  (forall c,
     loop_steps w (loop_start self) c ->
     current_chapter (cfg_self c) = 1 + successes c /\
     (forall k, last (cfg_returned c) = Some (k, false) ->
                current_chapter (cfg_self c) = k) /\
     1 <= current_chapter (cfg_self c) <= max_chapters (cfg_self c) + 1) /\
  (exists c,
     loop_steps w (loop_start self) c /\
     loop_step w c = None /\
     cfg_self c = (start_game w self).1).
Proof.
  intros C M. split.
  - intros c R.
    destruct (loop_inv_reachable w self c C M R) as (j & Hj & Hmax & Hcur & Hpc).
    destruct c as [s pc log]. cbn [cfg_self cfg_pc cfg_returned] in *.
    assert (Hlog : log = passed j \/ log = passed j ++ [(1 + Z.of_nat j, false)]).
    { destruct pc as [pending| |e]; [by left; apply Hpc| |by left; apply Hpc].
      destruct Hpc as [|[_ ?]]; auto. }
    repeat split; try lia.
    + destruct Hlog as [-> | ->].
      * rewrite successes_passed. done.
      * unfold successes. cbn [cfg_returned].
        rewrite List.filter_app, length_app.
        pose proof (successes_passed s pc j) as P. unfold successes in P.
        cbn [cfg_returned] in P. cbn. lia.
    + intros k L. destruct Hlog as [-> | ->].
      * destruct j as [|j]; [discriminate L|].
        rewrite passed_S, last_snoc in L. discriminate L.
      * rewrite last_snoc in L. injection L as <-. done.
  - rewrite start_game_eq. cbn zeta. cbn [fst]. apply loop_steps_for_chapters.
Qed.

(** In [world_two] the loop ends after chapters 1 and 2 have passed and
    chapter 3 has failed, with [current_chapter = 3]. *)
Lemma current_chapter_counts_successes_witness :
  let c := {| cfg_self := advance (advance init 1) 2;
              cfg_pc := Exited;
              cfg_returned := [(1, true); (2, true); (3, false)] |} in
  (current_chapter init = 1 /\ 0 <= max_chapters init /\
   loop_steps world_two (loop_start init) c) /\
  current_chapter (cfg_self c) = 1 + successes c /\
  current_chapter (cfg_self c) = 3.
Proof.
  intros c.
  assert (C : current_chapter init = 1) by reflexivity.
  assert (M : 0 <= max_chapters init) by (vm_compute; discriminate).
  assert (R : loop_steps world_two (loop_start init) c).
  { unfold loop_steps.
    eapply rtc_l; [vm_compute; reflexivity|].
    eapply rtc_l; [vm_compute; reflexivity|].
    eapply rtc_l; [vm_compute; reflexivity|].
    apply rtc_refl. }
  split; [done|].
  destruct (proj1 (current_chapter_counts_successes world_two init C M) c R)
    as (I & K & _).
  split; [exact I|]. apply K. reflexivity.
Defined.

(** * Further properties of the runner *)

(** The four ways [run_chapter] can go on after the import. *)
Lemma after_import_cases w n :
  (exists name,
     name ∈ [name_main; name_chapter n; name_ch_main n] /\
     after_import w n = ([EvInvoke n name], Ret true)) \/
  (exists name e,
     name ∈ [name_main; name_chapter n; name_ch_main n] /\
     after_import w n = ([EvInvoke n name], Raise e)) \/
  (exists m,
     import_module w (module_name n) = Ret m /\
     after_import w n = ([no_main_notice n], Ret false)) \/
  (exists e,
     import_module w (module_name n) = Raise e /\ is_ImportError e = true /\
     after_import w n =
       ([EvWrite (("Error loading chapter " +:+ pretty n +:+ ": "
                     +:+ exn_msg e) +:+ LF); skip_notice n], Ret false)) \/
  (exists e,
     import_module w (module_name n) = Raise e /\ is_ImportError e = false /\
     after_import w n = ([], Raise e)).
Proof.
  unfold after_import, entry_by_priority.
  destruct (import_module w (module_name n)) as [m|e].
  - destruct (m !! name_main) as [[|e1]|].
    { left. exists name_main. split; [set_solver|done]. }
    { right; left. exists name_main, e1. split; [set_solver|done]. }
    destruct (m !! name_chapter n) as [[|e2]|].
    { left. exists (name_chapter n). split; [set_solver|done]. }
    { right; left. exists (name_chapter n), e2. split; [set_solver|done]. }
    destruct (m !! name_ch_main n) as [[|e3]|].
    { left. exists (name_ch_main n). split; [set_solver|done]. }
    { right; left. exists (name_ch_main n), e3. split; [set_solver|done]. }
    right; right; left. by exists m.
  - destruct (is_ImportError e) eqn:E.
    + right; right; right; left. by exists e.
    + right; right; right; right. by exists e.
Qed.

(** X1.  [load_chapter] and [run_chapter] neither read nor write the
    engine: they hand it back as it was, [current_chapter] included, and
    what they print and return is the same on any other engine. *)
Theorem run_chapter_ignores_engine w n self self' :
  load_chapter w n self = (self, (load_chapter w n self').2) /\
  run_chapter w n self = (self, (run_chapter w n self').2).
Proof. by rewrite !load_chapter_eq, !run_chapter_eq. Qed.

(** X2.  Whatever happens next, [run_chapter(n)] first prints its
    three header lines and then attempts the import of [chapters.ch<n>],
    the only import it ever attempts. *)
Theorem run_chapter_header_then_import w n self :
  exists rest,
    (run_chapter w n self).2.1
      = header n ++ EvImport (module_name n) :: rest /\
    imports rest = [] /\
    imports (run_chapter w n self).2.1 = [module_name n].
Proof.
  rewrite run_chapter_eq. cbn [fst snd].
  exists (after_import w n).1. split; [done|].
  rewrite imports_app, after_import_no_import. cbn.
  by rewrite after_import_no_import.
Qed.

(** X3.  The result of [run_chapter(n)] tells what was called: [True]
    means one call, of one of the three names; [False] means no call; an
    exception comes from the import, with no call, or from the one entry
    point that was called. *)
Theorem run_chapter_result_invocation w n self :
  match (run_chapter w n self).2.2 with
  | Ret true =>
      exists name,
        name ∈ [name_main; name_chapter n; name_ch_main n] /\
        invocations (run_chapter w n self).2.1 = [(n, name)]
  | Ret false => invocations (run_chapter w n self).2.1 = []
  | Raise e =>
      invocations (run_chapter w n self).2.1 = [] /\
        import_module w (module_name n) = Raise e \/
      exists name, invocations (run_chapter w n self).2.1 = [(n, name)]
  end.
Proof.
  rewrite invocations_run_chapter, run_chapter_eq. cbn [fst snd].
  destruct (after_import_cases w n)
    as [(name & I & ->)|[(name & e & I & ->)|[(m & _ & ->)|
        [(e & _ & _ & ->)|(e & M & _ & ->)]]]]; cbn [fst snd]; eauto.
Qed.

(** X4.  [run_chapter(n)] returns [False] in two cases only, and says
    which on its last line: the skip line when [load_chapter(n)] gave
    [None], the no-main line when it gave a module. *)
Theorem run_chapter_false_explained w n self :
  (run_chapter w n self).2.2 = Ret false <->
  (last (run_chapter w n self).2.1 = Some (skip_notice n) /\
   (load_chapter w n self).2.2 = Ret None) \/
  (last (run_chapter w n self).2.1 = Some (no_main_notice n) /\
   exists m, (load_chapter w n self).2.2 = Ret (Some m)).
Proof.
  rewrite run_chapter_eq, load_chapter_eq. cbn [fst snd].
  destruct (after_import_cases w n)
    as [(name & I & ->)|[(name & e & I & ->)|[(m & M & ->)|
        [(e & M & E & ->)|(e & M & E & ->)]]]]; cbn [fst snd].
  - split; [discriminate|].
    rewrite last_app. cbn. intros [[L _]|[L _]]; discriminate L.
  - split; [discriminate|].
    rewrite last_app. cbn. intros [[L _]|[L _]]; discriminate L.
  - split; [|done]. intros _. right. rewrite last_app, M. cbn. eauto.
  - split; [|done]. intros _. left. rewrite last_app, M, E. done.
  - split; [discriminate|].
    rewrite last_app, M, E. cbn. intros [[_ L]|[_ [m L]]]; discriminate L.
Qed.

(** ** The names *)

Lemma length_append (s t : string) :
  String.length (s +:+ t) = (String.length s + String.length t)%nat.
Proof.
  induction s as [|c s IH]; [done|].
  rewrite append_cons. cbn [String.length]. by rewrite IH.
Qed.

(** X5.  For every chapter number the three names probed are three
    different attribute names. *)
Theorem entry_names_distinct n :
  name_main <> name_chapter n /\
  name_main <> name_ch_main n /\
  name_chapter n <> name_ch_main n.
Proof.
  repeat split.
  - unfold name_main, name_chapter. rewrite !append_cons. discriminate.
  - unfold name_main, name_ch_main. rewrite !append_cons. discriminate.
  - intros E. apply (f_equal String.length) in E.
    unfold name_chapter, name_ch_main in E. rewrite !length_append in E.
    cbn [String.length] in E. lia.
Qed.

Lemma append_inj_r (s t u : string) : s +:+ u = t +:+ u -> s = t.
Proof.
  revert t. induction s as [|c s IH]; intros [|d t] E.
  - done.
  - apply (f_equal String.length) in E.
    change ("" +:+ u) with u in E.
    rewrite append_cons in E. cbn [String.length] in E.
    rewrite length_append in E. lia.
  - apply (f_equal String.length) in E.
    change ("" +:+ u) with u in E.
    rewrite append_cons in E. cbn [String.length] in E.
    rewrite length_append in E. lia.
  - rewrite !append_cons in E. injection E as -> E. f_equal. by apply IH.
Qed.

(** X6.  Different chapter numbers give different module names and
    different entry-point names. *)
Theorem chapter_names_injective n n' :
  (module_name n = module_name n' <-> n = n') /\
  (name_chapter n = name_chapter n' <-> n = n') /\
  (name_ch_main n = name_ch_main n' <-> n = n').
Proof.
  repeat split; try (by intros ->); intros E.
  - unfold module_name in E. apply (inj _) in E. by apply (inj pretty).
  - unfold name_chapter in E. apply (inj _) in E. by apply (inj pretty).
  - unfold name_ch_main in E. apply (inj _) in E.
    apply append_inj_r in E. by apply (inj pretty).
Qed.

(** ** [start_game] and the engine it is given *)

Lemma loop_body_same_max w chapter self self' :
  max_chapters self = max_chapters self' ->
  (loop_body w chapter self).2 = (loop_body w chapter self').2.
Proof.
  intros M. rewrite !loop_body_eq, M.
  by destruct (after_import w chapter).2 as [[|]|e].
Qed.

Lemma for_chapters_same_max w chapters self self' :
  max_chapters self = max_chapters self' ->
  (for_chapters w chapters self).2 = (for_chapters w chapters self').2.
Proof.
  revert self self'.
  induction chapters as [|chapter rest IH]; intros self self' M; [done|].
  rewrite !for_chapters_unfold.
  pose proof (loop_body_same_max w chapter self self' M) as B.
  destruct (after_import w chapter).2 as [[|]|e]; cbn [fst snd];
    rewrite B; [|done..].
  by rewrite (IH (advance self chapter) (advance self' chapter) M).
Qed.

(** X7.  [start_game] does not look at [current_chapter]: on engines
    with the same [max_chapters] it prints and returns the same, so a
    second call starts again at chapter 1. *)
Theorem start_game_ignores_progress w self self' :
  max_chapters self = max_chapters self' ->
  (start_game w self).2 = (start_game w self').2.
Proof.
  intros M. rewrite !start_game_eq. cbn zeta. cbn [snd].
  by rewrite M, (for_chapters_same_max w _ self self' M).
Qed.

Lemma start_game_ignores_progress_witness :
  max_chapters init = max_chapters (advance init 3) /\
  (start_game world_two init).2 = (start_game world_two (advance init 3)).2.
Proof.
  assert (M : max_chapters init = max_chapters (advance init 3))
    by reflexivity.
  split; [exact M|].
  exact (start_game_ignores_progress world_two init (advance init 3) M).
Defined.

(** ** The order of the chapters *)

Lemma invoked_app tr tr' : invoked (tr ++ tr') = invoked tr ++ invoked tr'.
Proof. unfold invoked. by rewrite invocations_app, fmap_app. Qed.

Lemma epilogue_invocations : invocations epilogue = [].
Proof. reflexivity. Qed.

Lemma epilogue_imports : imports epilogue = [].
Proof. reflexivity. Qed.

Lemma loop_body_invoked w chapter self :
  invoked (loop_body w chapter self).2.1 = invoked (after_import w chapter).1.
Proof. unfold invoked. by rewrite loop_body_invocations. Qed.

Lemma for_chapters_in_order w chapters self :
  exists k j : nat,
    imports (for_chapters w chapters self).2.1
      = module_name <$> take k chapters /\
    invoked (for_chapters w chapters self).2.1 = take j chapters /\
    (j <= k <= S j)%nat.
Proof.
  revert self. induction chapters as [|chapter rest IH]; intros self.
  - exists 0%nat, 0%nat. rewrite for_chapters_nil.
    repeat split; try done; lia.
  - rewrite for_chapters_unfold.
    pose proof (loop_body_imports w chapter self) as I.
    pose proof (loop_body_invoked w chapter self) as V.
    destruct (after_import_cases w chapter)
      as [(name & _ & E)|[(name & e & _ & E)|[(m & _ & E)|
          [(e & _ & _ & E)|(e & _ & _ & E)]]]];
      rewrite E in *; cbn [fst snd] in *.
    + destruct (IH (advance self chapter)) as (k & j & Ik & Vj & Hkj).
      exists (S k), (S j).
      rewrite imports_app, invoked_app, I, V, Ik, Vj.
      repeat split; try done; lia.
    + exists 1%nat, 1%nat. rewrite I, V. repeat split; try done; lia.
    + exists 1%nat, 0%nat. rewrite I, V. repeat split; try done; lia.
    + exists 1%nat, 0%nat. rewrite I, V. repeat split; try done; lia.
    + exists 1%nat, 0%nat. rewrite I, V. repeat split; try done; lia.
Qed.

(** X8.  In every run of [start_game] the imports attempted are those
    of chapters [1..k] in order, and the chapters called are [1..j] in
    order, with [j = k] or [j = k - 1]: no chapter is skipped, repeated
    or called before the ones below it. *)
Theorem start_game_chapters_in_order w self :
  exists k j : nat,
    imports (start_game w self).2.1
      = module_name <$> take k (range 1 (max_chapters self + 1)) /\
    invoked (start_game w self).2.1
      = take j (range 1 (max_chapters self + 1)) /\
    (j <= k <= S j)%nat.
Proof.
  destruct (for_chapters_in_order w (range 1 (max_chapters self + 1)) self)
    as (k & j & I & V & H).
  exists k, j. rewrite start_game_eq. cbn zeta.
  destruct (for_chapters w _ self) as [s [tr [[]|e]]]; cbn [fst snd] in *.
  - rewrite !imports_app, !invoked_app, prologue_imports, epilogue_imports.
    unfold invoked at 1 3. rewrite prologue_invocations, epilogue_invocations.
    cbn. by rewrite !app_nil_r.
  - rewrite !imports_app, !invoked_app, prologue_imports.
    unfold invoked at 1. rewrite prologue_invocations. done.
Qed.

(** ** Clearing the screen *)

Lemma systems_app tr tr' : systems (tr ++ tr') = systems tr ++ systems tr'.
Proof. apply omap_app. Qed.

Lemma clear_screen_eq w :
  utils.clear_screen w = ([EvSystem (clear_command w)], Ret tt).
Proof.
  unfold utils.clear_screen, clear_command.
  by destruct (String.eqb (os_name w) "nt").
Qed.

Lemma press_enter_eq w :
  utils.press_enter_to_continue w
    = ([EvInput utils.pause_prompt; EvSystem (clear_command w)], Ret tt).
Proof.
  unfold utils.press_enter_to_continue. by rewrite clear_screen_eq.
Qed.

Lemma prologue_eq w :
  prologue w = EvSystem (clear_command w) :: utils.welcome_message.1
                 ++ [EvInput utils.pause_prompt; EvSystem (clear_command w)].
Proof. unfold prologue. by rewrite clear_screen_eq, press_enter_eq. Qed.

Lemma after_import_no_system w n : systems (after_import w n).1 = [].
Proof.
  destruct (after_import_shape w n)
    as [(name & r & ->)|[(s & ->)|[(s & s' & ->)|(e & ->)]]]; reflexivity.
Qed.

Lemma loop_body_systems w chapter self :
  systems (loop_body w chapter self).2.1 =
    replicate (count is_pause (loop_body w chapter self).2.1) (clear_command w).
Proof.
  rewrite loop_body_pauses, loop_body_trace, !systems_app,
    after_import_no_system, press_enter_eq.
  destruct (after_import w chapter).2 as [[|]|e]; try case_bool_decide;
    reflexivity.
Qed.

Lemma for_chapters_systems w chapters self :
  systems (for_chapters w chapters self).2.1 =
    replicate (count is_pause (for_chapters w chapters self).2.1)
      (clear_command w).
Proof.
  revert self. induction chapters as [|chapter rest IH]; intros self; [done|].
  rewrite for_chapters_unfold.
  pose proof (loop_body_systems w chapter self) as B.
  destruct (after_import w chapter).2 as [[|]|e]; cbn [fst snd]; try done.
  by rewrite systems_app, count_app, replicate_add, B, IH.
Qed.

(** X9.  In every run of [start_game] the commands given to the
    system are the platform's clear command, once at the start and once
    after each pause prompt, and nothing else. *)
Theorem start_game_clears_after_each_pause w self :
  systems (start_game w self).2.1 =
    replicate (S (count is_pause (start_game w self).2.1)) (clear_command w).
Proof.
  rewrite start_game_eq. cbn zeta.
  pose proof (for_chapters_systems w (range 1 (max_chapters self + 1)) self)
    as L.
  rewrite prologue_eq.
  destruct (for_chapters w _ self) as [s [tr [[]|e]]]; cbn [fst snd] in *.
  - rewrite !app_comm_cons, !systems_app, !count_app, L.
    change (systems epilogue) with (@nil string).
    change (count is_pause epilogue) with 0%nat.
    rewrite app_nil_r, Nat.add_0_r.
    change (S (?a + ?b)) with (S a + b)%nat. rewrite replicate_add.
    reflexivity.
  - rewrite !app_comm_cons, !systems_app, !count_app, L.
    change (S (?a + ?b)) with (S a + b)%nat. rewrite replicate_add.
    reflexivity.
Qed.

(** X10.  Every run of [start_game] starts in the same way, before
    any chapter is looked at: the screen is cleared with the platform's
    command, the welcome message is printed, the pause prompt is shown
    and the screen is cleared again. *)
Theorem start_game_welcome_first w self :
  exists rest,
    (start_game w self).2.1
      = EvSystem (clear_command w) :: utils.welcome_message.1
          ++ EvInput utils.pause_prompt :: EvSystem (clear_command w) :: rest.
Proof.
  rewrite start_game_eq. cbn zeta. rewrite prologue_eq.
  destruct (for_chapters w _ self) as [s [tr [[]|e]]]; cbn [fst snd].
  - eexists. rewrite <- app_comm_cons, <- List.app_assoc. reflexivity.
  - eexists. rewrite <- app_comm_cons, <- List.app_assoc. reflexivity.
Qed.

(** ** Runs by their outcome *)

Lemma count_nil p : count p [] = 0%nat.
Proof. reflexivity. Qed.

Lemma max_chapters_advanced self passed_chapters :
  max_chapters (advanced self passed_chapters) = max_chapters self.
Proof.
  revert self. induction passed_chapters as [|c l IH]; intros self; [done|].
  cbn [advanced foldl]. apply (IH (advance self c)).
Qed.

Lemma advanced_snoc self l c :
  advanced self (l ++ [c]) = advance (advanced self l) c.
Proof. unfold advanced. by rewrite foldl_app. Qed.

Lemma loop_body_notices w chapter self :
  count is_notice (loop_body w chapter self).2.1 =
    match (after_import w chapter).2 with
    | Ret false => 1%nat
    | _ => 0%nat
    end.
Proof.
  rewrite loop_body_trace, press_enter_eq.
  destruct (after_import_cases w chapter)
    as [(name & _ & ->)|[(name & e & _ & ->)|[(m & _ & ->)|
        [(e & _ & _ & ->)|(e & _ & _ & ->)]]]];
    cbn [fst snd]; try case_bool_decide; reflexivity.
Qed.

(** The loop over chapters that all succeed, followed by [rest]. *)
Lemma for_chapters_passed w pre rest self :
  Forall (succeeds w) pre ->
  exists tr,
    for_chapters w (pre ++ rest) self =
      ((for_chapters w rest (advanced self pre)).1,
       (tr ++ (for_chapters w rest (advanced self pre)).2.1,
        (for_chapters w rest (advanced self pre)).2.2)) /\
    invoked tr = pre /\
    imports tr = module_name <$> pre /\
    count is_pause tr
      = length (List.filter (fun c => bool_decide (c < max_chapters self)) pre) /\
    count is_notice tr = 0%nat.
Proof.
  intros S. revert self. induction S as [|c pre Sc S IH]; intros self.
  - exists []. cbn [app advanced foldl].
    by destruct (for_chapters w rest self) as [s [tr r]].
  - destruct (succeeds_after_import w c Sc) as [name E].
    destruct (IH (advance self c)) as (tr & F & V & I & P & N).
    exists ((loop_body w c self).2.1 ++ tr).
    cbn [app]. rewrite for_chapters_unfold, E. cbn [snd].
    rewrite F. cbn [fst snd advanced foldl].
    rewrite invoked_app, imports_app, !count_app, loop_body_invoked,
      loop_body_imports, loop_body_pauses, loop_body_notices, E, V, I, P, N.
    cbn [fst snd List.filter max_chapters advance].
    repeat split.
    + by rewrite List.app_assoc.
    + by case_bool_decide.
Qed.

Lemma range_from_1 m : range 1 (m + 1) = seqZ 1 m.
Proof. unfold range. f_equal. lia. Qed.

Lemma range_split m k :
  1 <= k <= m ->
  range 1 (m + 1) = seqZ 1 (k - 1) ++ k :: seqZ (k + 1) (m - k).
Proof.
  intros H. rewrite range_from_1.
  replace m with ((k - 1) + (m - (k - 1))) at 1 by lia.
  rewrite seqZ_app by lia. f_equal.
  rewrite seqZ_cons by lia. f_equal; [lia|]. f_equal; lia.
Qed.

Lemma pauses_seqZ m (j : nat) :
  length (List.filter (fun c => bool_decide (c < m)) (seqZ 1 (Z.of_nat j)))
    = Z.to_nat (Z.min (Z.of_nat j) (m - 1)).
Proof.
  induction j as [|j IH].
  { rewrite seqZ_nil by lia. cbn [List.filter length]. lia. }
  rewrite seqZ_S, List.filter_app, length_app, IH. cbn [List.filter].
  case_bool_decide; cbn [length]; lia.
Qed.

Lemma advance_advanced self l c :
  advance (advanced self l) c = advance self c.
Proof.
  unfold advance. rewrite max_chapters_advanced. f_equal.
  revert self. induction l as [|d l IH]; intros self; [done|].
  cbn [advanced foldl]. apply (IH (advance self d)).
Qed.

Lemma advanced_seqZ self k :
  1 <= k ->
  advanced self (seqZ 1 (k - 1))
    = if decide (k = 1) then self else advance self (k - 1).
Proof.
  intros H. destruct (decide (k = 1)) as [->|N]; [done|].
  replace (k - 1) with (Z.of_nat (S (Z.to_nat (k - 2)))) at 1 by lia.
  rewrite seqZ_S, advanced_snoc, advance_advanced. f_equal. lia.
Qed.

Lemma Forall_succeeds w k :
  (forall i, 1 <= i < k -> succeeds w i) ->
  Forall (succeeds w) (seqZ 1 (k - 1)).
Proof. intros H. apply Forall_seqZ. intros i ?. apply H. lia. Qed.

(** The loop of [start_game] when the chapters before [k] succeed. *)
Lemma for_chapters_upto w self k :
  1 <= k <= max_chapters self ->
  (forall i, 1 <= i < k -> succeeds w i) ->
  let self' := if decide (k = 1) then self else advance self (k - 1) in
  let r := for_chapters w (range 1 (max_chapters self + 1)) self in
  exists tr,
    r.2.1 = tr ++ (loop_body w k self).2.1
               ++ match (after_import w k).2 with
                  | Ret true =>
                      (for_chapters w (seqZ (k + 1) (max_chapters self - k))
                         (advance self k)).2.1
                  | _ => []
                  end /\
    invoked tr = seqZ 1 (k - 1) /\
    imports tr = module_name <$> seqZ 1 (k - 1) /\
    count is_pause tr = Z.to_nat (k - 1) /\
    count is_notice tr = 0%nat /\
    match (after_import w k).2 with
    | Ret true =>
        r.1 = (for_chapters w (seqZ (k + 1) (max_chapters self - k))
                 (advance self k)).1 /\
        r.2.2 = (for_chapters w (seqZ (k + 1) (max_chapters self - k))
                   (advance self k)).2.2
    | Ret false => r.1 = self' /\ r.2.2 = Ret tt
    | Raise e => r.1 = self' /\ r.2.2 = Raise e
    end.
Proof.
  intros H S self' r. subst self' r.
  destruct (for_chapters_passed w (seqZ 1 (k - 1))
              (k :: seqZ (k + 1) (max_chapters self - k)) self
              (Forall_succeeds w k S)) as (tr & F & V & I & P & N).
  exists tr. rewrite (range_split _ k H), F. cbn [fst snd].
  rewrite for_chapters_unfold, advanced_seqZ by lia.
  rewrite (loop_body_same_max w k _ self)
    by (destruct (decide (k = 1)); done).
  assert (A : advance (if decide (k = 1) then self else advance self (k - 1)) k
              = advance self k) by (by destruct (decide (k = 1))).
  rewrite A.
  split.
  { destruct (after_import w k).2 as [[|]|e]; cbn [fst snd];
      rewrite ?app_nil_r; done. }
  split; [done|]. split; [done|]. split.
  { rewrite P. replace (k - 1) with (Z.of_nat (Z.to_nat (k - 1))) at 1 by lia.
    rewrite pauses_seqZ. lia. }
  split; [done|].
  destruct (after_import w k).2 as [[|]|e]; cbn [fst snd]; done.
Qed.

Lemma after_import_invoked w n :
  match (after_import w n).2 with
  | Ret true => invoked (after_import w n).1 = [n]
  | Ret false => invoked (after_import w n).1 = []
  | Raise _ =>
      invoked (after_import w n).1 = [] \/ invoked (after_import w n).1 = [n]
  end.
Proof.
  destruct (after_import_cases w n)
    as [(name & _ & ->)|[(name & e & _ & ->)|[(m & _ & ->)|
        [(e & _ & _ & ->)|(e & _ & _ & ->)]]]]; cbn; auto.
Qed.

Lemma seqZ_snoc k : 1 <= k -> seqZ 1 k = seqZ 1 (k - 1) ++ [k].
Proof.
  intros H. replace k with ((k - 1) + 1) at 1 by lia.
  rewrite seqZ_app by lia. f_equal.
  rewrite seqZ_cons by lia. rewrite seqZ_nil by lia. f_equal. lia.
Qed.

Lemma prologue_pauses w : count is_pause (prologue w) = 1%nat.
Proof. rewrite prologue_eq. reflexivity. Qed.

Lemma prologue_notices w : count is_notice (prologue w) = 0%nat.
Proof. rewrite prologue_eq. reflexivity. Qed.

Lemma run_chapter_outcome w n self :
  (run_chapter w n self).2.2 = (after_import w n).2.
Proof. by rewrite run_chapter_eq. Qed.

(** X12.  When the chapters below [k] succeed and [run_chapter(k)]
    returns [False], [start_game] returns, having called the chapters
    [1..k-1], attempted the imports of [1..k] and no other, paused [k]
    times in all, and printed the error notice once and the banner once;
    [current_chapter] is [k] (for [k = 1] it is left as it was). *)
Theorem start_game_halted w self k :
  1 <= k <= max_chapters self ->
  (forall i, 1 <= i < k -> succeeds w i) ->
  (run_chapter w k self).2.2 = Ret false ->
  (start_game w self).2.2 = Ret tt /\
  (start_game w self).1
    = (if decide (k = 1) then self else advance self (k - 1)) /\
  invoked (start_game w self).2.1 = seqZ 1 (k - 1) /\
  imports (start_game w self).2.1 = module_name <$> seqZ 1 k /\
  count is_pause (start_game w self).2.1 = Z.to_nat k /\
  count is_notice (start_game w self).2.1 = 1%nat /\
  count is_banner (start_game w self).2.1 = 1%nat.
Proof.
  intros H S F. rewrite run_chapter_outcome in F.
  destruct (for_chapters_upto w self k H S) as (tr & T & V & I & P & N & O).
  pose proof (after_import_invoked w k) as AV.
  rewrite F in T, O, AV. destruct O as [O1 O2].
  destruct (start_game_closing w self O2) as (R & B & _).
  split; [exact R|]. split; [|split; [|split; [|split; [|split; [|exact B]]]]];
    rewrite start_game_eq; cbn zeta; rewrite O2; cbn [fst snd];
    rewrite ?T, ?app_nil_r.
  - exact O1.
  - rewrite !invoked_app, V, loop_body_invoked, AV.
    unfold invoked at 1 2. rewrite prologue_invocations, epilogue_invocations.
    cbn. by rewrite !app_nil_r.
  - rewrite !imports_app, I, loop_body_imports, prologue_imports,
      epilogue_imports, (seqZ_snoc k), fmap_app by lia.
    cbn. by rewrite app_nil_r.
  - rewrite !count_app, P, loop_body_pauses, F, prologue_pauses.
    change (count is_pause epilogue) with 0%nat. lia.
  - rewrite !count_app, N, loop_body_notices, F, prologue_notices.
    change (count is_notice epilogue) with 0%nat. lia.
Qed.

Lemma start_game_halted_witness :
  (1 <= 3 <= max_chapters init /\
   (forall i, 1 <= i < 3 -> succeeds world_gap i) /\
   (run_chapter world_gap 3 init).2.2 = Ret false) /\
  (start_game world_gap init).1 = advance init 2 /\
  invoked (start_game world_gap init).2.1 = [1; 2] /\
  count is_notice (start_game world_gap init).2.1 = 1%nat.
Proof.
  assert (H : 1 <= 3 <= max_chapters init) by (cbn; lia).
  assert (S : forall i, 1 <= i < 3 -> succeeds world_gap i).
  { intros i Hi self.
    assert (i = 1 \/ i = 2) as [-> | ->] by lia; vm_compute; reflexivity. }
  assert (F : (run_chapter world_gap 3 init).2.2 = Ret false)
    by (vm_compute; reflexivity).
  split; [done|].
  destruct (start_game_halted world_gap init 3 H S F)
    as (_ & E & V & _ & _ & N & _).
  split; [exact E|]. split; [exact V|exact N].
Defined.

(** X11.  When every chapter [1..max_chapters] succeeds, [start_game]
    returns with [current_chapter = max_chapters + 1], having called the
    chapters [1..max_chapters] in order, paused [max_chapters] times in
    all, printed no error notice and printed the banner once. *)
Theorem start_game_completed w self :
  1 <= max_chapters self ->
  (forall k, 1 <= k <= max_chapters self -> succeeds w k) ->
  (start_game w self).2.2 = Ret tt /\
  (start_game w self).1 = advance self (max_chapters self) /\
  invoked (start_game w self).2.1 = seqZ 1 (max_chapters self) /\
  imports (start_game w self).2.1 = module_name <$> seqZ 1 (max_chapters self) /\
  count is_pause (start_game w self).2.1 = Z.to_nat (max_chapters self) /\
  count is_notice (start_game w self).2.1 = 0%nat /\
  count is_banner (start_game w self).2.1 = 1%nat.
Proof.
  intros H S.
  assert (A : Forall (succeeds w) (seqZ 1 (max_chapters self))).
  { apply Forall_seqZ. intros i ?. apply S. lia. }
  destruct (for_chapters_passed w (seqZ 1 (max_chapters self)) [] self A)
    as (tr & F & V & I & P & N).
  rewrite app_nil_r, for_chapters_nil in F. cbn [fst snd] in F.
  rewrite app_nil_r in F.
  assert (L : for_chapters w (range 1 (max_chapters self + 1)) self
              = (advance self (max_chapters self), (tr, Ret tt))).
  { rewrite range_from_1, F. f_equal.
    pose proof (advanced_seqZ self (max_chapters self + 1)) as E.
    replace (max_chapters self + 1 - 1) with (max_chapters self) in E by lia.
    rewrite E by lia. destruct (decide _); [lia|done]. }
  assert (O : (for_chapters w (range 1 (max_chapters self + 1)) self).2.2
              = Ret tt) by (by rewrite L).
  destruct (start_game_closing w self O) as (R & B & _).
  split; [exact R|]. split; [|split; [|split; [|split; [|split; [|exact B]]]]];
    rewrite start_game_eq; cbn zeta; rewrite L; cbn [fst snd].
  - done.
  - rewrite !invoked_app, V.
    unfold invoked at 1 2. rewrite prologue_invocations, epilogue_invocations.
    cbn. by rewrite !app_nil_r.
  - rewrite !imports_app, I, prologue_imports, epilogue_imports.
    cbn. by rewrite !app_nil_r.
  - rewrite !count_app, P, prologue_pauses.
    change (count is_pause epilogue) with 0%nat.
    pose proof (pauses_seqZ (max_chapters self)
                  (Z.to_nat (max_chapters self))) as Q.
    rewrite Z2Nat.id in Q by lia. rewrite Q. lia.
  - rewrite !count_app, N, prologue_notices.
    change (count is_notice epilogue) with 0%nat. lia.
Qed.

Lemma start_game_completed_witness :
  (1 <= max_chapters init /\
   forall k, 1 <= k <= max_chapters init -> succeeds world_five k) /\
  (start_game world_five init).1 = advance init 5 /\
  invoked (start_game world_five init).2.1 = [1; 2; 3; 4; 5] /\
  count is_pause (start_game world_five init).2.1 = 5%nat.
Proof.
  assert (H : 1 <= max_chapters init) by (cbn; lia).
  assert (S : forall k, 1 <= k <= max_chapters init -> succeeds world_five k).
  { intros k Hk self. cbn in Hk.
    assert (k = 1 \/ k = 2 \/ k = 3 \/ k = 4 \/ k = 5)
      as [-> | [-> | [-> | [-> | ->]]]] by lia; vm_compute; reflexivity. }
  split; [done|].
  destruct (start_game_completed world_five init H S)
    as (_ & E & V & _ & P & _).
  split; [exact E|]. split; [exact V|exact P].
Defined.

(** X13.  When the chapters below [k] succeed and [run_chapter(k)]
    raises, [start_game] raises the same exception: no import after that
    of chapter [k], no error notice, no banner, no farewell;
    [current_chapter] is [k] (for [k = 1] it is left as it was). *)
Theorem start_game_crashed w self k e :
  1 <= k <= max_chapters self ->
  (forall i, 1 <= i < k -> succeeds w i) ->
  (run_chapter w k self).2.2 = Raise e ->
  (start_game w self).2.2 = Raise e /\
  (start_game w self).1
    = (if decide (k = 1) then self else advance self (k - 1)) /\
  (invoked (start_game w self).2.1 = seqZ 1 (k - 1) \/
   invoked (start_game w self).2.1 = seqZ 1 k) /\
  imports (start_game w self).2.1 = module_name <$> seqZ 1 k /\
  count is_pause (start_game w self).2.1 = Z.to_nat k /\
  count is_notice (start_game w self).2.1 = 0%nat /\
  count is_banner (start_game w self).2.1 = 0%nat /\
  count is_farewell (start_game w self).2.1 = 0%nat.
Proof.
  intros H S F. rewrite run_chapter_outcome in F.
  destruct (for_chapters_upto w self k H S) as (tr & T & V & I & P & N & O).
  pose proof (after_import_invoked w k) as AV.
  rewrite F in T, O, AV. destruct O as [O1 O2].
  destruct (start_game_unwound w self e O2) as (R & B & Fw).
  split; [exact R|].
  split; [|split; [|split; [|split; [|split; [|split; [exact B|exact Fw]]]]]];
    rewrite start_game_eq; cbn zeta; rewrite O2; cbn [fst snd];
    rewrite ?T, ?app_nil_r.
  - exact O1.
  - rewrite !invoked_app, V, loop_body_invoked.
    unfold invoked at 1 3. rewrite prologue_invocations. cbn [fmap list_fmap app].
    destruct AV as [-> | ->]; [left; by rewrite app_nil_r|right].
    by rewrite (seqZ_snoc k) by lia.
  - rewrite !imports_app, I, loop_body_imports, prologue_imports,
      (seqZ_snoc k), fmap_app by lia. done.
  - rewrite !count_app, P, loop_body_pauses, F, prologue_pauses. lia.
  - rewrite !count_app, N, loop_body_notices, F, prologue_notices. lia.
Qed.

Lemma start_game_crashed_witness :
  (1 <= 1 <= max_chapters init /\
   (forall i, 1 <= i < 1 -> succeeds world_raising i) /\
   (run_chapter world_raising 1 init).2.2 = Raise boom) /\
  (start_game world_raising init).2.2 = Raise boom /\
  (start_game world_raising init).1 = init /\
  count is_banner (start_game world_raising init).2.1 = 0%nat.
Proof.
  assert (H : 1 <= 1 <= max_chapters init) by (cbn; lia).
  assert (S : forall i, 1 <= i < 1 -> succeeds world_raising i)
    by (intros i Hi; lia).
  assert (F : (run_chapter world_raising 1 init).2.2 = Raise boom)
    by (vm_compute; reflexivity).
  split; [done|].
  destruct (start_game_crashed world_raising init 1 boom H S F)
    as (R & E & _ & _ & _ & _ & B & _).
  split; [exact R|]. split; [exact E|exact B].
Defined.

(** X14.  With [max_chapters] zero or negative the loop has nothing to
    run: [start_game] prints its opening and its closing, attempts no
    import and leaves the engine as it was. *)
Theorem start_game_no_chapters w self :
  max_chapters self <= 0 ->
  start_game w self = (self, (prologue w ++ epilogue, Ret tt)).
Proof.
  intros H. rewrite start_game_eq. cbn zeta.
  rewrite range_from_1, seqZ_nil by lia. by rewrite for_chapters_nil.
Qed.

Lemma start_game_no_chapters_witness :
  let self := {| current_chapter := 1; max_chapters := 0;
                 game_state := game_state init |} in
  max_chapters self <= 0 /\
  imports (start_game world_five self).2.1 = [] /\
  count is_banner (start_game world_five self).2.1 = 1%nat.
Proof.
  intros self.
  assert (H : max_chapters self <= 0) by (cbn; lia).
  split; [exact H|].
  rewrite (start_game_no_chapters world_five self H).
  split; vm_compute; reflexivity.
Defined.

(** ** What [current_chapter] tells after a run *)

Lemma for_chapters_progress w (n : nat) a self :
  current_chapter self = a ->
  (for_chapters w (seqZ a (Z.of_nat n)) self).2.2 = Ret tt ->
  current_chapter (for_chapters w (seqZ a (Z.of_nat n)) self).1
    = a + Z.of_nat (length (invoked (for_chapters w (seqZ a (Z.of_nat n)) self).2.1)).
Proof.
  revert a self. induction n as [|n IH]; intros a self C.
  - rewrite seqZ_nil by lia. rewrite for_chapters_nil. cbn. lia.
  - rewrite seqZ_cons by lia.
    replace (Z.pred (Z.of_nat (S n))) with (Z.of_nat n) by lia.
    rewrite for_chapters_unfold.
    pose proof (after_import_invoked w a) as AV.
    pose proof (loop_body_invoked w a self) as LV.
    destruct (after_import w a).2 as [[|]|e]; cbn [fst snd].
    + intros R. rewrite invoked_app, length_app, LV, AV.
      rewrite (IH (Z.succ a) (advance self a)); [cbn [length]; lia|cbn; lia|done].
    + intros _. rewrite LV, AV. cbn. lia.
    + discriminate.
Qed.

Lemma start_game_progress w self :
  current_chapter self = 1 ->
  (start_game w self).2.2 = Ret tt ->
  current_chapter (start_game w self).1
    = 1 + Z.of_nat (length (invoked (start_game w self).2.1)).
Proof.
  intros C. rewrite start_game_eq. cbn zeta.
  rewrite range_from_1.
  replace (seqZ 1 (max_chapters self))
    with (seqZ 1 (Z.of_nat (Z.to_nat (max_chapters self)))).
  2:{ destruct (decide (0 <= max_chapters self)).
      - by rewrite Z2Nat.id.
      - rewrite !seqZ_nil; [done|lia..]. }
  pose proof (for_chapters_progress w (Z.to_nat (max_chapters self)) 1 self C)
    as P.
  destruct (for_chapters w _ self) as [s [tr [[]|e]]]; cbn [fst snd] in *;
    [|discriminate].
  intros _. rewrite P by done.
  rewrite !invoked_app. unfold invoked at 2 4.
  rewrite prologue_invocations, epilogue_invocations. cbn [fmap list_fmap app].
  by rewrite app_nil_r.
Qed.

(** X15.  After a run of [start_game] that returns, on an engine
    started at [current_chapter = 1], [current_chapter] is 1 plus the
    number of chapters that were called. *)
Theorem current_chapter_counts_invoked w self :
  current_chapter self = 1 ->
  (start_game w self).2.2 = Ret tt ->
  current_chapter (start_game w self).1
    = 1 + Z.of_nat (length (invoked (start_game w self).2.1)).
Proof. apply start_game_progress. Qed.

Lemma current_chapter_counts_invoked_witness :
  (current_chapter init = 1 /\ (start_game world_two init).2.2 = Ret tt) /\
  current_chapter (start_game world_two init).1 = 3 /\
  invoked (start_game world_two init).2.1 = [1; 2].
Proof.
  assert (C : current_chapter init = 1) by reflexivity.
  assert (R : (start_game world_two init).2.2 = Ret tt)
    by (vm_compute; reflexivity).
  split; [done|].
  assert (V : invoked (start_game world_two init).2.1 = [1; 2])
    by (vm_compute; reflexivity).
  split; [|exact V].
  rewrite (current_chapter_counts_invoked world_two init C R), V. reflexivity.
Defined.

(** X16.  After [main()] has returned, [current_chapter] lies between
    1 and 6, and it is 6 exactly when the five chapters were called. *)
Theorem main_completes_iff w :
  (main w).2.2 = Ret tt ->
  1 <= current_chapter (main w).1 <= 6 /\
  (current_chapter (main w).1 = 6 <->
   invoked (main w).2.1 = [1; 2; 3; 4; 5]).
Proof.
  unfold main. intros R.
  rewrite (start_game_progress w init eq_refl R).
  destruct (for_chapters_in_order w (range 1 (max_chapters init + 1)) init)
    as (k & j & _ & V & _).
  assert (V' : invoked (start_game w init).2.1 = take j [1; 2; 3; 4; 5]).
  { rewrite start_game_eq. cbn zeta.
    destruct (for_chapters w _ init) as [s [tr [[]|e]]]; cbn [fst snd] in *.
    - rewrite !invoked_app. unfold invoked at 1 3.
      rewrite prologue_invocations, epilogue_invocations.
      cbn [fmap list_fmap app]. by rewrite app_nil_r.
    - rewrite !invoked_app. unfold invoked at 1.
      by rewrite prologue_invocations. }
  rewrite V'.
  destruct j as [|[|[|[|[|j]]]]]; cbn; rewrite ?take_nil; cbn;
    (split; [lia|]); split; intros E; try done; try lia.
Qed.

Lemma main_completes_iff_witness :
  (main world_five).2.2 = Ret tt /\
  current_chapter (main world_five).1 = 6.
Proof.
  assert (R : (main world_five).2.2 = Ret tt) by (vm_compute; reflexivity).
  split; [exact R|].
  apply (proj2 (main_completes_iff world_five R)).
  vm_compute; reflexivity.
Defined.

(** ** More on [slow_type] *)

Lemma sleeps_app tr tr' : sleeps (tr ++ tr') = sleeps tr ++ sleeps tr'.
Proof. apply omap_app. Qed.

Lemma typed_chars speed text :
  sleeps (flat_map (typed speed) (chars text))
    = replicate (String.length text) speed /\
  length (flat_map (typed speed) (chars text)) = (3 * String.length text)%nat.
Proof.
  induction text as [|c text [IH1 IH2]]; [done|].
  cbn [chars flat_map typed app String.length replicate length].
  change (sleeps (?a :: ?b :: EvSleep speed :: ?l)) with (speed :: sleeps l).
  rewrite IH1, IH2. split; [done|lia].
Qed.

Lemma slow_type_eq text (speed : option Q) :
  sleep (default utils.default_speed speed)
    = ([EvSleep (default utils.default_speed speed)], Ret tt) ->
  utils.slow_type text speed =
    (flat_map (typed (default utils.default_speed speed)) (chars text)
       ++ [EvWrite (LF +:+ LF)], Ret tt).
Proof.
  intros H. unfold utils.slow_type, mbind, IO_bind.
  by rewrite (slow_type_loop_eq _ _ H).
Qed.

(** X17.  With a speed from 0 to 9 000 000 000 seconds, [slow_type]
    sleeps once per character of the text, each time for [speed], and
    its trace has three events per character and one more for the
    closing [print]. *)
Theorem slow_type_sleeps_once_per_character text (speed : option Q) :
  (0 <= default utils.default_speed speed <= 9000000000)%Q ->
  sleeps (utils.slow_type text speed).1
    = replicate (String.length text) (default utils.default_speed speed) /\
  length (utils.slow_type text speed).1 = (3 * String.length text + 1)%nat.
Proof.
  intros H. apply sleep_in_range in H. rewrite (slow_type_eq _ _ H).
  cbn [fst].
  destruct (typed_chars (default utils.default_speed speed) text) as [S L].
  rewrite sleeps_app, length_app, S, L. cbn. by rewrite app_nil_r.
Qed.

Lemma slow_type_sleeps_once_per_character_witness :
  (0 <= default utils.default_speed (Some 2) <= 9000000000)%Q /\
  sleeps (utils.slow_type "abc" (Some 2%Q)).1 = [2%Q; 2%Q; 2%Q].
Proof.
  assert (H : (0 <= default utils.default_speed (Some 2) <= 9000000000)%Q)
    by (split; vm_compute; discriminate).
  split; [exact H|].
  exact (proj1 (slow_type_sleeps_once_per_character "abc" (Some 2%Q) H)).
Defined.

(** X18.  For a speed between -9 000 000 000 and 9 000 000 000 seconds,
    [slow_type] returns exactly when the text is empty or the speed is
    not negative: with an empty text no sleep is attempted, so a
    negative speed does no harm. *)
Theorem slow_type_returns_iff text (speed : option Q) :
  (-9000000000 <= default utils.default_speed speed <= 9000000000)%Q ->
  (utils.slow_type text speed).2 = Ret tt <->
  text = "" \/ (0 <= default utils.default_speed speed)%Q.
Proof.
  intros [H1 H2].
  destruct (Qlt_le_dec (default utils.default_speed speed) 0) as [N|P].
  - destruct text as [|c rest].
    + split; [auto|done].
    + unfold utils.slow_type. cbn [chars utils.slow_type_loop].
      unfold mbind, IO_bind, print_noend_flush.
      rewrite (sleep_negative _ (conj H1 N)).
      split; [discriminate|]. intros [|]; [discriminate|lra].
  - rewrite (slow_type_eq text speed (sleep_in_range _ (conj P H2))).
    split; auto.
Qed.

Lemma slow_type_returns_iff_witness :
  (-9000000000 <= default utils.default_speed (Some (-1)) <= 9000000000)%Q /\
  (utils.slow_type "" (Some (-1)%Q)).2 = Ret tt /\
  (utils.slow_type "a" (Some (-1)%Q)).2 <> Ret tt.
Proof.
  assert (H : (-9000000000 <= default utils.default_speed (Some (-1))
               <= 9000000000)%Q) by (split; vm_compute; discriminate).
  split; [exact H|]. split.
  - apply (proj2 (slow_type_returns_iff "" (Some (-1)%Q) H)). by left.
  - intros R. apply (proj1 (slow_type_returns_iff "a" (Some (-1)%Q) H)) in R.
    destruct R as [R|R]; [discriminate R|]. vm_compute in R. by apply R.
Defined.

(** X19.  With a negative speed, down to -9 000 000 000 seconds, and a
    text that is not empty, [slow_type] writes the first character,
    flushes, and raises the [ValueError] of [time.sleep]: nothing else
    is written, not even the closing line feeds. *)
Theorem slow_type_stops_at_first_character c rest (speed : Q) :
  (-9000000000 <= speed < 0)%Q ->
  utils.slow_type (String c rest) (Some speed) =
    ([EvWrite (String c EmptyString); EvFlush],
     Raise (Exn ValueError "sleep length must be non-negative")).
Proof. apply slow_type_negative_speed. Qed.

Lemma slow_type_stops_at_first_character_witness :
  (-9000000000 <= -1 < 0)%Q /\
  stdout (utils.slow_type "xyz" (Some (-1)%Q)).1 = "x".
Proof.
  assert (H : (-9000000000 <= -1 < 0)%Q)
    by (split; [vm_compute; discriminate|reflexivity]).
  split; [exact H|].
  by rewrite (slow_type_stops_at_first_character _ _ (-1)%Q H).
Defined.

(** ** [current_chapter] over a lifetime *)

Lemma for_chapters_final_chapter w (n : nat) a self :
  current_chapter (for_chapters w (seqZ a (Z.of_nat n)) self).1
    = current_chapter self \/
  a + 1 <= current_chapter (for_chapters w (seqZ a (Z.of_nat n)) self).1
        <= a + Z.of_nat n.
Proof.
  revert a self. induction n as [|n IH]; intros a self.
  - rewrite seqZ_nil by lia. rewrite for_chapters_nil. by left.
  - rewrite seqZ_cons by lia.
    replace (Z.pred (Z.of_nat (S n))) with (Z.of_nat n) by lia.
    rewrite for_chapters_unfold.
    destruct (after_import w a).2 as [[|]|e]; cbn [fst snd]; [|by left..].
    right. destruct (IH (Z.succ a) (advance self a)) as [-> | H]; cbn; lia.
Qed.

Lemma start_game_final_chapter w self :
  current_chapter (start_game w self).1 = current_chapter self \/
  2 <= current_chapter (start_game w self).1 <= max_chapters self + 1.
Proof.
  rewrite start_game_eq. cbn zeta. cbn [fst]. rewrite range_from_1.
  destruct (decide (0 <= max_chapters self)) as [H|H].
  - pose proof (for_chapters_final_chapter w (Z.to_nat (max_chapters self))
                  1 self) as F.
    rewrite Z2Nat.id in F by done. lia.
  - rewrite seqZ_nil by lia. rewrite for_chapters_nil. by left.
Qed.

Lemma perform_current_chapter self call :
  max_chapters self = 5 ->
  1 <= current_chapter self <= 6 ->
  1 <= current_chapter (perform self call) <= 6.
Proof.
  intros M C. destruct call as [w []]; unfold perform; cbn [fst snd].
  - by rewrite load_chapter_eq.
  - by rewrite run_chapter_eq.
  - done.
  - done.
  - destruct (start_game_final_chapter w self) as [-> | H]; lia.
Qed.

(** X20.  In every engine reached from [GameEngine()] by calls of its
    methods, [start_game] called any number of times, [current_chapter]
    lies between 1 and 6. *)
Theorem lifetime_current_chapter_bounded calls :
  1 <= current_chapter (lifetime calls) <= 6.
Proof.
  unfold lifetime.
  assert (G : forall self,
            max_chapters self = 5 -> 1 <= current_chapter self <= 6 ->
            1 <= current_chapter (foldl perform self calls) <= 6).
  { induction calls as [|call calls IH]; intros self M C; [done|].
    cbn [foldl]. apply IH.
    - by rewrite (proj2 (perform_frame self call)).
    - by apply perform_current_chapter. }
  apply G; [done|cbn; lia].
Qed.

(** ** When [load_chapter] prints *)

(** X21.  [load_chapter] prints exactly when it returns [None]: it is
    silent when it returns a module and when it lets an exception
    through. *)
Theorem load_chapter_silent_unless_none w n self :
  stdout (load_chapter w n self).2.1 = "" <->
  (load_chapter w n self).2.2 <> Ret None.
Proof.
  rewrite load_chapter_eq. cbn [fst snd].
  destruct (import_module w (module_name n)) as [m|e]; [done|].
  destruct (is_ImportError e); [|done].
  cbn [fst snd stdout]. rewrite !append_cons. split; [discriminate|done].
Qed.
